(** * alx_travel_app: the booking and payment views

    A shallow embedding of [alx_travel_app/listings/views.py] and
    [alx_travel_app/listings/urls.py].  The views are Django REST framework
    viewsets over three models ([Listing], [Booking], [Payment]); they talk
    to the Chapa payment gateway over HTTP and hand confirmation e-mails to
    a task queue.  The database, the task queue and the record of calls made
    to the gateway form the state that every view threads; a view either
    returns or raises, and what it wrote before raising stays written
    (Django's default autocommit). *)

From Stdlib Require Import Ascii.
From stdpp Require Import gmap strings list fin_maps pretty.

Set Warnings "-register-all".

Open Scope Z_scope.
Open Scope string_scope.

(** ** Python values

    What [response.json()] hands back, and what a model attribute assigned
    from it holds.  Numbers are kept to the integers: the views never read a
    number out of a gateway reply. *)

Inductive Json : Type :=
  | JNull
  | JBool (b : bool)
  | JNum (n : Z)
  | JStr (s : string)
  | JArr (items : list Json)
  | JObj (members : gmap string Json).

(** Python truthiness, as [not payment.transaction_id] tests it. *)
Definition truthy (v : Json) : bool :=
  match v with
  | JNull => false
  | JBool b => b
  | JNum n => negb (Z.eqb n 0)
  | JStr s => negb (String.eqb s "")
  | JArr items => match items with [] => false | _ => true end
  | JObj members => negb (bool_decide (members = ∅))
  end.

(** [v == 'success'] and the like: equal only to that very string. *)
Definition eq_str (v : Json) (s : string) : bool :=
  match v with
  | JStr s' => String.eqb s' s
  | _ => false
  end.

(** ** Models

    [models.py] is not part of the sources at hand; the records keep the
    fields that the views read or write.  [transaction_id] and
    [payment_url] hold the value that the view assigns, [JNull] standing
    for Python's [None]; the text that a character column makes of a value
    that is not a string is not modelled. *)

Inductive PaymentStatus := pending | completed | failed.
Inductive BookingStatus := booking_pending | confirmed | cancelled.

#[export] Instance PaymentStatus_eq_dec : EqDecision PaymentStatus.
Proof. solve_decision. Defined.
#[export] Instance BookingStatus_eq_dec : EqDecision BookingStatus.
Proof. solve_decision. Defined.

(** A [Decimal]: [dec_coeff] scaled down by [10 ^ dec_places]. *)
Record Decimal := { dec_coeff : Z; dec_places : nat }.

Record Date := { year : Z; month : Z; day : Z }.

Record Listing := { listing_id : Z; title : string }.

Record User := {
  user_id : Z;
  email : string;
  first_name : string;
  last_name : string
}.

Record Booking := {
  booking_id : Z;
  booking_listing : Z;          (* foreign key to Listing *)
  booking_user : Z;             (* foreign key to User *)
  check_in_date : Date;
  check_out_date : Date;
  total_price : Decimal;
  booking_status : BookingStatus
}.

Record Payment := {
  payment_id : Z;
  payment_booking : Z;          (* foreign key to Booking *)
  amount : Decimal;
  currency : string;
  reference : string;
  transaction_id : Json;
  payment_url : Json;
  payment_status : PaymentStatus
}.

Definition with_booking_status (st : BookingStatus) (b : Booking) : Booking :=
  {| booking_id := booking_id b;
     booking_listing := booking_listing b;
     booking_user := booking_user b;
     check_in_date := check_in_date b;
     check_out_date := check_out_date b;
     total_price := total_price b;
     booking_status := st |}.

Definition with_payment_status (st : PaymentStatus) (p : Payment) : Payment :=
  {| payment_id := payment_id p;
     payment_booking := payment_booking p;
     amount := amount p;
     currency := currency p;
     reference := reference p;
     transaction_id := transaction_id p;
     payment_url := payment_url p;
     payment_status := st |}.

Definition with_transaction_id (v : Json) (p : Payment) : Payment :=
  {| payment_id := payment_id p;
     payment_booking := payment_booking p;
     amount := amount p;
     currency := currency p;
     reference := reference p;
     transaction_id := v;
     payment_url := payment_url p;
     payment_status := payment_status p |}.

Definition with_payment_url (v : Json) (p : Payment) : Payment :=
  {| payment_id := payment_id p;
     payment_booking := payment_booking p;
     amount := amount p;
     currency := currency p;
     reference := reference p;
     transaction_id := transaction_id p;
     payment_url := v;
     payment_status := payment_status p |}.

(** ** Rendering

    [str(...)] and f-string interpolation of the values sent to the gateway. *)

Fixpoint zeros (n : nat) : string :=
  match n with
  | O => EmptyString
  | S n' => String "0"%char (zeros n')
  end.

(** Left-pad with zeros up to [width] characters. *)
Definition zero_pad (width : nat) (s : string) : string :=
  zeros (width - String.length s) +:+ s.

Fixpoint string_drop (n : nat) (s : string) : string :=
  match n, s with
  | O, _ => s
  | S n', String _ s' => string_drop n' s'
  | S _, EmptyString => EmptyString
  end.

Fixpoint string_take (n : nat) (s : string) : string :=
  match n, s with
  | O, _ => EmptyString
  | S n', String a s' => String a (string_take n' s')
  | S _, EmptyString => EmptyString
  end.

Definition str_Decimal (d : Decimal) : string :=
  let digits := zero_pad (S (dec_places d)) (pretty (Z.abs (dec_coeff d))) in
  let cut := (String.length digits - dec_places d)%nat in
  let sign := if Z.ltb (dec_coeff d) 0 then "-" else "" in
  match dec_places d with
  | O => sign +:+ digits
  | _ => sign +:+ string_take cut digits +:+ "." +:+ string_drop cut digits
  end.

Definition str_Date (d : Date) : string :=
  zero_pad 4 (pretty (year d)) +:+ "-" +:+ zero_pad 2 (pretty (month d))
    +:+ "-" +:+ zero_pad 2 (pretty (day d)).

(** [s.rstrip('/')] *)
Fixpoint rstrip_slash (s : string) : string :=
  match s with
  | EmptyString => EmptyString
  | String a s' =>
      match rstrip_slash s' with
      | EmptyString => if Ascii.eqb a "/"%char then EmptyString else String a EmptyString
      | r => String a r
      end
  end.

(** ** The state the views run in *)

(** One call of [send_booking_confirmation_email.delay(...)]. *)
Record EmailJob := {
  job_booking_id : Z;
  job_user_email : string;
  job_listing_title : string
}.

(** One call of [requests.post] or [requests.get]. *)
Record GatewayRequest := {
  method : string;
  url : string;
  headers : gmap string string;
  json : option (gmap string string)
}.

(** What the gateway answers: a status code and a decoded body, or the
    call raises [requests.exceptions.RequestException]. *)
Record HttpReply := { reply_status_code : Z; reply_json : Json }.

Inductive GatewayOutcome :=
  | Replied (r : HttpReply)
  | RequestFailed (details : string).

Definition Gateway := GatewayRequest → GatewayOutcome.

Record World := {
  listings : gmap Z Listing;
  users : gmap Z User;
  bookings : gmap Z Booking;
  payments : gmap Z Payment;
  next_booking_id : Z;
  next_payment_id : Z;
  task_queue : list EmailJob;
  gateway_calls : list GatewayRequest
}.

Definition set_bookings (f : gmap Z Booking → gmap Z Booking) (w : World) : World :=
  {| listings := listings w; users := users w;
     bookings := f (bookings w); payments := payments w;
     next_booking_id := next_booking_id w; next_payment_id := next_payment_id w;
     task_queue := task_queue w; gateway_calls := gateway_calls w |}.

Definition set_payments (f : gmap Z Payment → gmap Z Payment) (w : World) : World :=
  {| listings := listings w; users := users w;
     bookings := bookings w; payments := f (payments w);
     next_booking_id := next_booking_id w; next_payment_id := next_payment_id w;
     task_queue := task_queue w; gateway_calls := gateway_calls w |}.

Definition bump_booking_id (w : World) : World :=
  {| listings := listings w; users := users w;
     bookings := bookings w; payments := payments w;
     next_booking_id := next_booking_id w + 1; next_payment_id := next_payment_id w;
     task_queue := task_queue w; gateway_calls := gateway_calls w |}.

Definition bump_payment_id (w : World) : World :=
  {| listings := listings w; users := users w;
     bookings := bookings w; payments := payments w;
     next_booking_id := next_booking_id w; next_payment_id := next_payment_id w + 1;
     task_queue := task_queue w; gateway_calls := gateway_calls w |}.

Definition push_job (j : EmailJob) (w : World) : World :=
  {| listings := listings w; users := users w;
     bookings := bookings w; payments := payments w;
     next_booking_id := next_booking_id w; next_payment_id := next_payment_id w;
     task_queue := task_queue w ++ [j]; gateway_calls := gateway_calls w |}.

Definition push_call (r : GatewayRequest) (w : World) : World :=
  {| listings := listings w; users := users w;
     bookings := bookings w; payments := payments w;
     next_booking_id := next_booking_id w; next_payment_id := next_payment_id w;
     task_queue := task_queue w; gateway_calls := gateway_calls w ++ [r] |}.

(** ** Exceptions and the view monad *)

Inductive Model := ListingModel | UserModel | BookingModel | PaymentModel.

Inductive Exception :=
  | Http404
  | AttributeError
  | AssertionError
  | TypeError
  | KeyError (key : string)
  | DoesNotExist (model : Model)
  | MultipleObjectsReturned
  | IntegrityError
  | RequestException (details : string).

Inductive Outcome (A : Type) :=
  | Returns (a : A)
  | Raises (e : Exception).
Arguments Returns {A} a.
Arguments Raises {A} e.

Definition View (A : Type) : Type := World → Outcome A * World.

#[export] Instance View_ret : MRet View := λ A a w, (Returns a, w).

#[export] Instance View_bind : MBind View := λ A B f m w,
  match m w with
  | (Returns a, w') => f a w'
  | (Raises e, w') => (Raises e, w')
  end.

Definition raise {A} (e : Exception) : View A := λ w, (Raises e, w).
Definition read {A} (f : World → A) : View A := λ w, (Returns (f w), w).
Definition write (f : World → World) : View unit := λ w, (Returns tt, f w).

(** [try: body  except requests.exceptions.RequestException as e: handler] *)
Definition try_except_RequestException {A}
    (body : View A) (handler : string → View A) : View A := λ w,
  match body w with
  | (Raises (RequestException details), w') => handler details w'
  | r => r
  end.

(** [try: body  except Payment.DoesNotExist: handler] *)
Definition try_except_Payment_DoesNotExist {A}
    (body : View A) (handler : View A) : View A := λ w,
  match body w with
  | (Raises (DoesNotExist PaymentModel), w') => handler w'
  | r => r
  end.

(** The world a view leaves behind, whether it returned or raised. *)
Definition after {A} (v : View A) (w : World) : World := (v w).2.

(** ** Response bodies and the requests library *)

Record Response := { status_code : Z; data : gmap string Json }.

Definition HTTP_200_OK : Z := 200.
Definition HTTP_400_BAD_REQUEST : Z := 400.
Definition HTTP_503_SERVICE_UNAVAILABLE : Z := 503.

(** [d.get(key)] on a decoded body: [None] for a missing key, and an
    [AttributeError] when [d] is not a dict. *)
Definition dict_get (d : Json) (key : string) : View Json :=
  match d with
  | JObj members => mret (default JNull (members !! key))
  | _ => raise AttributeError
  end.

(** [d[key]] with a string key: a [KeyError] for a key that a dict lacks,
    a [TypeError] when [d] is not a dict. *)
Definition dict_item (d : Json) (key : string) : View Json :=
  match d with
  | JObj members =>
      match members !! key with
      | Some v => mret v
      | None => raise (KeyError key)
      end
  | _ => raise TypeError
  end.

(** [requests.post(url, headers=..., json=...)] followed by
    [response.json()]; a body that does not decode is a
    [RequestException] of the library as well. *)
Definition requests_send (gw : Gateway) (req : GatewayRequest) : View HttpReply :=
  write (push_call req);;
  match gw req with
  | Replied r => mret r
  | RequestFailed details => raise (RequestException details)
  end.

Definition requests_post (gw : Gateway) (u : string)
    (hs : gmap string string) (payload : gmap string string) : View HttpReply :=
  requests_send gw {| method := "POST"; url := u; headers := hs; json := Some payload |}.

Definition requests_get (gw : Gateway) (u : string)
    (hs : gmap string string) : View HttpReply :=
  requests_send gw {| method := "GET"; url := u; headers := hs; json := None |}.

(** ** The ORM and the task queue *)

(** What the deployment fixes: the secret read by [os.getenv] when the
    module loads, and the [reference] a new [Payment] row is given by its
    model default.  How Python prints a list or a dict is left open. *)
Record Env := {
  CHAPA_SECRET_KEY : option string;
  new_reference : Z → string;
  py_repr : Json → string       (* Python's text for a list or a dict *)
}.

(** [str(v)], as an f-string interpolates a value. *)
Definition str_Json (env : Env) (v : Json) : string :=
  match v with
  | JNull => "None"
  | JBool true => "True"
  | JBool false => "False"
  | JNum n => pretty n
  | JStr s => s
  | _ => py_repr env v
  end.

Definition CHAPA_API_URL : string := "https://api.chapa.co/v1".

(** A viewset instance.  [kwargs] is the attribute that the framework's
    dispatch sets from the URL, and that [get_object] reads the key ["pk"]
    from; an instance that was not dispatched has no such attribute. *)
Record ViewSet := { kwargs : option (gmap string Z) }.

Definition routed (pk : Z) : ViewSet := {| kwargs := Some {[ "pk" := pk ]} |}.

(** [self.get_object()] of a generic view over the table [table]. *)
Definition get_object {R} (table : World → gmap Z R) (self : ViewSet) : View R :=
  match kwargs self with
  | None => raise AttributeError
  | Some kw =>
      match kw !! "pk" with
      | None => raise AssertionError
      | Some pk =>
          row ← read (λ w, table w !! pk);
          match row with
          | Some r => mret r
          | None => raise Http404
          end
      end
  end.

(** Following a foreign key to a row of [model]. *)
Definition related {R} (model : Model) (table : World → gmap Z R) (key : Z) : View R :=
  row ← read (λ w, table w !! key);
  match row with
  | Some r => mret r
  | None => raise (DoesNotExist model)
  end.

Definition Payment_save (p : Payment) : View unit :=
  write (set_payments (insert (payment_id p) p)).

Definition Booking_save (b : Booking) : View unit :=
  write (set_bookings (insert (booking_id b) b)).

(** Modelled from the spec: the default of [Payment.status] in [models.py],
    which is absent here; a Payment is created with status [pending], and
    its gateway transaction identifier and checkout URL are initially
    absent. *)
Definition Payment_default_status : PaymentStatus := pending.

(** [Payment.objects.create(booking=..., amount=..., currency=...)] *)
Definition Payment_objects_create (env : Env) (b : Booking)
    (amt : Decimal) (cur : string) : View Payment :=
  pk ← read next_payment_id;
  write bump_payment_id;;
  let p := {| payment_id := pk;
              payment_booking := booking_id b;
              amount := amt;
              currency := cur;
              reference := new_reference env pk;
              transaction_id := JNull;
              payment_url := JNull;
              payment_status := Payment_default_status |} in
  Payment_save p;;
  mret p.

Definition pending_for (b : Booking) (row : Z * Payment) : Prop :=
  payment_booking row.2 = booking_id b ∧ payment_status row.2 = pending.

#[export] Instance pending_for_dec b row : Decision (pending_for b row).
Proof. unfold pending_for. apply _. Defined.

(** [Payment.objects.get(booking=booking, status='pending')] *)
Definition Payment_objects_get_pending (b : Booking) : View Payment :=
  rows ← read (λ w, map_to_list (filter (pending_for b) (payments w)));
  match rows with
  | [] => raise (DoesNotExist PaymentModel)
  | [(_, p)] => mret p
  | _ => raise MultipleObjectsReturned
  end.

(** [send_booking_confirmation_email.delay(booking_id=..., user_email=...,
    listing_title=...)] *)
Definition send_booking_confirmation_email_delay
    (bid : Z) (mail : string) (ttl : string) : View unit :=
  write (push_job {| job_booking_id := bid;
                     job_user_email := mail;
                     job_listing_title := ttl |}).

(** The validated fields a [BookingSerializer] is saved with. *)
Record BookingData := {
  data_listing : Z;
  data_user : Z;
  data_check_in_date : Date;
  data_check_out_date : Date;
  data_total_price : Decimal
}.

(** Modelled from the spec: [BookingSerializer.save()] of [serializers.py]
    and the default of [Booking.status] in [models.py], both absent here;
    it persists a new Booking with status [pending].  The row refers to a
    Listing and a User, and the database refuses a row whose reference
    dangles. *)
Definition serializer_save (v : BookingData) : View Booking :=
  l ← read (λ w, listings w !! data_listing v);
  u ← read (λ w, users w !! data_user v);
  match l, u with
  | Some _, Some _ =>
      pk ← read next_booking_id;
      write bump_booking_id;;
      let b := {| booking_id := pk;
                  booking_listing := data_listing v;
                  booking_user := data_user v;
                  check_in_date := data_check_in_date v;
                  check_out_date := data_check_out_date v;
                  total_price := data_total_price v;
                  booking_status := booking_pending |} in
      Booking_save b;;
      mret b
  | _, _ => raise IntegrityError
  end.

(** The request, as far as the views look at it:
    [request.build_absolute_uri('/')]. *)
Record Request := { absolute_root : string }.

Definition str_option (o : option string) : string :=
  match o with
  | Some s => s
  | None => "None"
  end.

(** The two header dicts of [views.py] are the same. *)
Definition chapa_headers (env : Env) : gmap string string :=
  {[ "Authorization" := "Bearer " +:+ str_option (CHAPA_SECRET_KEY env);
     "Content-Type" := "application/json" ]}.

(** [response.status_code == 200 and response_data.get('status') == 'success']:
    the body is looked at only when the code is 200. *)
Definition acknowledged (response : HttpReply) : View bool :=
  if bool_decide (reply_status_code response = 200) then
    st ← dict_get (reply_json response) "status";
    mret (eq_str st "success")
  else mret false.

(** ** views.py *)

(** The actions keep the parameters of the source: [self], [request] and
    the [pk] of the URL.  None of them reads [pk]: the object acted on is
    the one that [self.get_object()] finds. *)

Module PaymentViewSet.

Definition callback_url (request : Request) (payment : Payment) : string :=
  rstrip_slash (absolute_root request) +:+ "/api/payments/"
    +:+ pretty (payment_id payment) +:+ "/verify/".

Definition return_url (request : Request) (booking : Booking) : string :=
  rstrip_slash (absolute_root request) +:+ "/bookings/"
    +:+ pretty (booking_id booking) +:+ "/".

(** The [payload] dict of [initiate_payment]. *)
Definition payload (request : Request) (payment : Payment) (booking : Booking)
    (user : User) (listing : Listing) : gmap string string :=
  {[ "amount" := str_Decimal (amount payment);
     "currency" := currency payment;
     "email" := email user;
     "first_name" := first_name user;
     "last_name" := last_name user;
     "tx_ref" := reference payment;
     "callback_url" := callback_url request payment;
     "return_url" := return_url request booking;
     "customization[title]" := "Booking Payment for " +:+ title listing;
     "customization[description]" :=
       "Payment for booking from " +:+ str_Date (check_in_date booking)
         +:+ " to " +:+ str_Date (check_out_date booking) ]}.

Definition initiate_payment (env : Env) (gw : Gateway)
    (self : ViewSet) (request : Request) (pk : option Z) : View Response :=
  payment ← get_object payments self;
  booking ← related BookingModel bookings (payment_booking payment);
  user ← related UserModel users (booking_user booking);
  listing ← related ListingModel listings (booking_listing booking);
  let payload := payload request payment booking user listing in
  let headers := chapa_headers env in
  try_except_RequestException
    (response ← requests_post gw (CHAPA_API_URL +:+ "/transaction/initialize")
                  headers payload;
     let response_data := reply_json response in
     ok ← acknowledged response;
     if ok : bool then
       d ← dict_item response_data "data";
       tid ← dict_get d "transaction_id";
       let payment := with_transaction_id tid payment in
       d ← dict_item response_data "data";
       curl ← dict_get d "checkout_url";
       let payment := with_payment_url curl payment in
       Payment_save payment;;
       mret {| status_code := HTTP_200_OK;
               data := {[ "status" := JStr "success";
                          "message" := JStr "Payment initiated successfully";
                          "payment_url" := payment_url payment ]} |}
     else
       mret {| status_code := HTTP_400_BAD_REQUEST;
               data := {[ "status" := JStr "error";
                          "message" := JStr "Failed to initiate payment";
                          "details" := response_data ]} |})
    (λ e,
       mret {| status_code := HTTP_503_SERVICE_UNAVAILABLE;
               data := {[ "status" := JStr "error";
                          "message" := JStr "Failed to connect to payment service";
                          "details" := JStr e ]} |}).

Definition verify_payment (env : Env) (gw : Gateway)
    (self : ViewSet) (request : Request) (pk : option Z) : View Response :=
  payment ← get_object payments self;
  if negb (truthy (transaction_id payment)) then
    mret {| status_code := HTTP_400_BAD_REQUEST;
            data := {[ "status" := JStr "error";
                       "message" := JStr "No transaction ID found for this payment" ]} |}
  else
    let headers := chapa_headers env in
    try_except_RequestException
      (response ← requests_get gw
                    (CHAPA_API_URL +:+ "/transaction/verify/"
                       +:+ str_Json env (transaction_id payment))
                    headers;
       let response_data := reply_json response in
       ok ← acknowledged response;
       if ok : bool then
         let payment := with_payment_status completed payment in
         Payment_save payment;;
         booking ← related BookingModel bookings (payment_booking payment);
         let booking := with_booking_status confirmed booking in
         Booking_save booking;;
         user ← related UserModel users (booking_user booking);
         listing ← related ListingModel listings (booking_listing booking);
         send_booking_confirmation_email_delay
           (booking_id booking) (email user) (title listing);;
         mret {| status_code := HTTP_200_OK;
                 data := {[ "status" := JStr "success";
                            "message" := JStr "Payment verified successfully" ]} |}
       else
         let payment := with_payment_status failed payment in
         Payment_save payment;;
         mret {| status_code := HTTP_400_BAD_REQUEST;
                 data := {[ "status" := JStr "error";
                            "message" := JStr "Payment verification failed";
                            "details" := response_data ]} |})
      (λ e,
         mret {| status_code := HTTP_503_SERVICE_UNAVAILABLE;
                 data := {[ "status" := JStr "error";
                            "message" := JStr "Failed to verify payment";
                            "details" := JStr e ]} |}).

End PaymentViewSet.

Module BookingViewSet.

Definition perform_create (env : Env) (serializer : BookingData) : View Booking :=
  booking ← serializer_save serializer;
  payment ← Payment_objects_create env booking (total_price booking) "ETB";
  user ← related UserModel users (booking_user booking);
  listing ← related ListingModel listings (booking_listing booking);
  send_booking_confirmation_email_delay
    (booking_id booking) (email user) (title listing);;
  mret booking.

(** Lines 58 to 65: the pending Payment of the booking, created when
    there is none. *)
Definition pending_payment (env : Env) (booking : Booking) : View Payment :=
  try_except_Payment_DoesNotExist
    (Payment_objects_get_pending booking)
    (Payment_objects_create env booking (total_price booking) "ETB").

(** The viewset built on the spot is given [request] and [format_kwarg]
    and nothing else. *)
Definition payment_viewset : ViewSet := {| kwargs := None |}.

Definition initiate_payment (env : Env) (gw : Gateway)
    (self : ViewSet) (request : Request) (pk : option Z) : View Response :=
  booking ← get_object bookings self;
  payment ← pending_payment env booking;
  PaymentViewSet.initiate_payment env gw payment_viewset request
    (Some (payment_id payment)).

End BookingViewSet.

(** ** urls.py

    The routes that [DefaultRouter] derives from the three registrations,
    and the one explicit [path].  A detail action is served under the name
    of its method. *)

Inductive Endpoint :=
  | api_root
  | listing_list
  | listing_detail (pk : string)
  | booking_list
  | booking_detail (pk : string)
  | booking_initiate_payment (pk : string)
  | payment_list
  | payment_detail (pk : string)
  | payment_initiate_payment (pk : string)
  | payment_verify_payment (pk : string)
  | sample_api.

(** The path of each route, relative to where [urlpatterns] is mounted. *)
Definition route (e : Endpoint) : string :=
  match e with
  | api_root => ""
  | listing_list => "listings/"
  | listing_detail pk => "listings/" +:+ pk +:+ "/"
  | booking_list => "bookings/"
  | booking_detail pk => "bookings/" +:+ pk +:+ "/"
  | booking_initiate_payment pk => "bookings/" +:+ pk +:+ "/initiate_payment/"
  | payment_list => "payments/"
  | payment_detail pk => "payments/" +:+ pk +:+ "/"
  | payment_initiate_payment pk => "payments/" +:+ pk +:+ "/initiate_payment/"
  | payment_verify_payment pk => "payments/" +:+ pk +:+ "/verify_payment/"
  | sample_api => "sample/"
  end.

(** Cut a path at its slashes. *)
Fixpoint segments_go (cur : string) (s : string) : list string :=
  match s with
  | EmptyString => [String.rev cur]
  | String a s' =>
      if Ascii.eqb a "/"%char then String.rev cur :: segments_go EmptyString s'
      else segments_go (String a cur) s'
  end.

Definition segments (s : string) : list string := segments_go EmptyString s.

(** A primary key in a URL: [[^/.]+]. *)
Definition is_pk (s : string) : bool :=
  negb (String.eqb s "") &&
  forallb (λ a, negb (Ascii.eqb a "."%char)) (String.list_ascii_of_string s).

(** The view that answers a path below the mount point, if any. *)
Definition resolve (path : string) : option Endpoint :=
  match segments path with
  | [""] => Some api_root
  | ["sample"; ""] => Some sample_api
  | [prefix; ""] =>
      if String.eqb prefix "listings" then Some listing_list
      else if String.eqb prefix "bookings" then Some booking_list
      else if String.eqb prefix "payments" then Some payment_list
      else None
  | [prefix; pk; ""] =>
      if negb (is_pk pk) then None
      else if String.eqb prefix "listings" then Some (listing_detail pk)
      else if String.eqb prefix "bookings" then Some (booking_detail pk)
      else if String.eqb prefix "payments" then Some (payment_detail pk)
      else None
  | [prefix; pk; action; ""] =>
      if negb (is_pk pk) then None
      else if String.eqb prefix "bookings" && String.eqb action "initiate_payment"
        then Some (booking_initiate_payment pk)
      else if String.eqb prefix "payments" && String.eqb action "initiate_payment"
        then Some (payment_initiate_payment pk)
      else if String.eqb prefix "payments" && String.eqb action "verify_payment"
        then Some (payment_verify_payment pk)
      else None
  | _ => None
  end.

(** ** The operations of the API that [views.py] defines

    The four handlers that [views.py] writes out.  The handlers that the
    three viewsets inherit from [ModelViewSet] (list, retrieve, create,
    update, partial_update, destroy) are not among them: what they accept
    and write is decided by [serializers.py] and [models.py].  A statement
    over [Operation] is a statement about these four handlers. *)

Inductive Operation :=
  | create_booking (serializer : BookingData)
  | booking_initiate (pk : Z) (request : Request) (gw : Gateway)
  | payment_initiate (pk : Z) (request : Request) (gw : Gateway)
  | payment_verify (pk : Z) (request : Request) (gw : Gateway).

Definition step (env : Env) (op : Operation) (w : World) : World :=
  match op with
  | create_booking serializer =>
      after (BookingViewSet.perform_create env serializer) w
  | booking_initiate pk request gw =>
      after (BookingViewSet.initiate_payment env gw (routed pk) request (Some pk)) w
  | payment_initiate pk request gw =>
      after (PaymentViewSet.initiate_payment env gw (routed pk) request (Some pk)) w
  | payment_verify pk request gw =>
      after (PaymentViewSet.verify_payment env gw (routed pk) request (Some pk)) w
  end.

Definition run (env : Env) (ops : list Operation) (w : World) : World :=
  foldl (λ w op, step env op w) w ops.

(** ** Vocabulary of the statements *)

(** The calls that the two payment actions make. *)
Definition verify_call (env : Env) (p : Payment) : GatewayRequest :=
  {| method := "GET";
     url := CHAPA_API_URL +:+ "/transaction/verify/"
              +:+ str_Json env (transaction_id p);
     headers := chapa_headers env;
     json := None |}.

Definition initiate_call (env : Env) (request : Request) (p : Payment)
    (b : Booking) (u : User) (l : Listing) : GatewayRequest :=
  {| method := "POST";
     url := CHAPA_API_URL +:+ "/transaction/initialize";
     headers := chapa_headers env;
     json := Some (PaymentViewSet.payload request p b u l) |}.

(** The gateway's answer carries the business status ["success"]. *)
Definition says_success (body : Json) : Prop :=
  ∃ members, body = JObj members ∧ members !! "status" = Some (JStr "success").

(** A reply that reports a failure: any code but 200, or a body whose
    status is missing or is anything but ["success"]. *)
Definition reports_failure (r : HttpReply) : Prop :=
  reply_status_code r ≠ 200 ∨
  ∃ members, reply_json r = JObj members ∧
             members !! "status" ≠ Some (JStr "success").

(** The rows that creating a booking, and creating a payment for a
    booking, add to the tables of [w]. *)
Definition new_booking (v : BookingData) (w : World) : Booking :=
  {| booking_id := next_booking_id w;
     booking_listing := data_listing v;
     booking_user := data_user v;
     check_in_date := data_check_in_date v;
     check_out_date := data_check_out_date v;
     total_price := data_total_price v;
     booking_status := booking_pending |}.

Definition new_payment (env : Env) (b : Booking) (w : World) : Payment :=
  {| payment_id := next_payment_id w;
     payment_booking := booking_id b;
     amount := total_price b;
     currency := "ETB";
     reference := new_reference env (next_payment_id w);
     transaction_id := JNull;
     payment_url := JNull;
     payment_status := pending |}.

(** Referential integrity, as the database keeps it: a row sits under its
    own key, keys come from the table's sequence, foreign keys resolve. *)
Definition payment_row_ok (w : World) (k : Z) (p : Payment) : Prop :=
  payment_id p = k ∧ k < next_payment_id w ∧
  is_Some (bookings w !! payment_booking p).

Definition booking_row_ok (w : World) (k : Z) (b : Booking) : Prop :=
  booking_id b = k ∧ k < next_booking_id w ∧
  is_Some (users w !! booking_user b) ∧
  is_Some (listings w !! booking_listing b).

Definition integrity (w : World) : Prop :=
  map_Forall (payment_row_ok w) (payments w) ∧
  map_Forall (booking_row_ok w) (bookings w).

#[export] Instance integrity_dec w : Decision (integrity w).
Proof. unfold integrity, payment_row_ok, booking_row_ok. apply _. Defined.

(** At most one pending Payment per Booking. *)
Definition same_pending (k1 : Z) (p1 : Payment) (k2 : Z) (p2 : Payment) : Prop :=
  payment_booking p1 = payment_booking p2 →
  payment_status p1 = pending → payment_status p2 = pending → k1 = k2.

Definition one_pending (w : World) : Prop :=
  map_Forall (λ k1 p1, map_Forall (same_pending k1 p1) (payments w)) (payments w).

#[export] Instance one_pending_dec w : Decision (one_pending w).
Proof. unfold one_pending, same_pending. apply _. Defined.

(** The URL at which [verify_payment] is served, when the project mounts
    the application's [urlpatterns] under [mount] (the project's own
    [urls.py] is not among the sources). *)
Definition verify_endpoint_url (request : Request) (mount : string) (pk : Z) : string :=
  rstrip_slash (absolute_root request) +:+ "/" +:+ mount
    +:+ route (payment_verify_payment (pretty pk)).

(** ** A worked scenario

    One listing, one user, and the booking of the specification's
    examples: 2024-06-01 to 2024-06-05 for 400.00. *)

Definition scenario_env : Env :=
  {| CHAPA_SECRET_KEY := Some "CHASECK_TEST";
     new_reference := λ pk, "ref-" +:+ pretty pk;
     py_repr := λ _, "" |}.

Definition scenario_start : World :=
  {| listings := {[ 1 := {| listing_id := 1; title := "Lake house" |} ]};
     users := {[ 1 := {| user_id := 1; email := "guest@example.com";
                         first_name := "Abel"; last_name := "B" |} ]};
     bookings := ∅;
     payments := ∅;
     next_booking_id := 1;
     next_payment_id := 1;
     task_queue := [];
     gateway_calls := [] |}.

Definition scenario_booking : BookingData :=
  {| data_listing := 1;
     data_user := 1;
     data_check_in_date := {| year := 2024; month := 6; day := 1 |};
     data_check_out_date := {| year := 2024; month := 6; day := 5 |};
     data_total_price := {| dec_coeff := 40000; dec_places := 2 |} |}.

Definition scenario_request : Request :=
  {| absolute_root := "http://testserver/" |}.

Definition reply_initiated : HttpReply :=
  {| reply_status_code := 200;
     reply_json :=
       JObj {[ "status" := JStr "success";
               "data" := JObj {[ "transaction_id" := JStr "tx_123";
                                 "checkout_url" := JStr "https://pay.example/tx_123" ]} ]} |}.

Definition reply_verified : HttpReply :=
  {| reply_status_code := 200;
     reply_json := JObj {[ "status" := JStr "success" ]} |}.

Definition reply_declined : HttpReply :=
  {| reply_status_code := 200;
     reply_json := JObj {[ "status" := JStr "failed" ]} |}.

Definition answering (o : GatewayOutcome) : Gateway := λ _, o.

(** The booking made. *)
Definition scenario_booked : World :=
  step scenario_env (create_booking scenario_booking) scenario_start.

(** The payment that came with it. *)
Definition scenario_payment : Payment :=
  new_payment scenario_env (new_booking scenario_booking scenario_start) scenario_start.

(** Its payment registered with the gateway. *)
Definition scenario_initiated : World :=
  step scenario_env
    (payment_initiate 1 scenario_request (answering (Replied reply_initiated)))
    scenario_booked.

(** The payment once the gateway has registered it. *)
Definition scenario_registered : Payment :=
  with_payment_url (JStr "https://pay.example/tx_123")
    (with_transaction_id (JStr "tx_123") scenario_payment).

(** The payment verified. *)
Definition scenario_completed : World :=
  step scenario_env (payment_verify 1 scenario_request (answering (Replied reply_verified)))
    scenario_initiated.

(** ** The rest of views.py *)

(** [sample_api], answering GET [sample/]. *)
Definition sample_api_view : View Response :=
  mret {| status_code := HTTP_200_OK;
          data := {[ "message" := JStr "Listings API is working" ]} |}.




(** ** More vocabulary *)

(** A URL segment that can stand for a primary key: not empty, with
    neither a slash nor a dot in it. *)
Definition no_slash (s : string) : bool :=
  forallb (λ a, negb (Ascii.eqb a "/"%char)) (String.list_ascii_of_string s).

Definition pk_segment (s : string) : bool := is_pk s && no_slash s.

Definition endpoint_ok (e : Endpoint) : bool :=
  match e with
  | listing_detail pk | booking_detail pk | booking_initiate_payment pk
  | payment_detail pk | payment_initiate_payment pk
  | payment_verify_payment pk => pk_segment pk
  | _ => true
  end.

(** Two payment rows that differ at most in what the gateway assigned. *)
Definition same_but_gateway_fields (p p' : Payment) : Prop :=
  payment_id p' = payment_id p ∧
  payment_booking p' = payment_booking p ∧
  amount p' = amount p ∧
  currency p' = currency p ∧
  reference p' = reference p ∧
  payment_status p' = payment_status p.

(** Two payment rows that differ at most in status and in what the
    gateway assigned. *)
Definition same_payment_attempt (p p' : Payment) : Prop :=
  payment_id p' = payment_id p ∧
  payment_booking p' = payment_booking p ∧
  amount p' = amount p ∧
  currency p' = currency p ∧
  reference p' = reference p.

(** The confirmation job of a booking. *)
Definition confirmation_job (b : Booking) (u : User) (l : Listing) : EmailJob :=
  {| job_booking_id := booking_id b;
     job_user_email := email u;
     job_listing_title := title l |}.

(** Replies of the scenario that fall outside the expected shape. *)
Definition reply_without_data : HttpReply :=
  {| reply_status_code := 200;
     reply_json := JObj {[ "status" := JStr "success" ]} |}.

Definition reply_null_data : HttpReply :=
  {| reply_status_code := 200;
     reply_json := JObj {[ "status" := JStr "success"; "data" := JNull ]} |}.

Definition reply_empty_data : HttpReply :=
  {| reply_status_code := 200;
     reply_json := JObj {[ "status" := JStr "success"; "data" := JObj ∅ ]} |}.

Definition reply_not_a_dict : HttpReply :=
  {| reply_status_code := 200; reply_json := JArr [] |}.

Definition reply_rejected : HttpReply :=
  {| reply_status_code := 401;
     reply_json := JObj {[ "status" := JStr "failed";
                           "message" := JStr "Invalid API Key" ]} |}.

Definition scenario_user : User :=
  {| user_id := 1; email := "guest@example.com";
     first_name := "Abel"; last_name := "B" |}.

Definition scenario_listing : Listing := {| listing_id := 1; title := "Lake house" |}.

(** What the gateway answers to the verify call of a payment. *)
Definition gateway_confirms (env : Env) (gw : Gateway) (p : Payment) : Prop :=
  ∃ r, gw (verify_call env p) = Replied r ∧
       reply_status_code r = 200 ∧ says_success (reply_json r).

Definition gateway_declines (env : Env) (gw : Gateway) (p : Payment) : Prop :=
  ∃ r, gw (verify_call env p) = Replied r ∧ reports_failure r.

(** * Properties *)

(** ** Running a view *)

Ltac unfold_view :=
  cbv [after PaymentViewSet.verify_payment PaymentViewSet.initiate_payment
       BookingViewSet.initiate_payment BookingViewSet.perform_create
       BookingViewSet.pending_payment BookingViewSet.payment_viewset
       serializer_save Payment_objects_create Payment_objects_get_pending
       try_except_RequestException try_except_Payment_DoesNotExist
       requests_get requests_post requests_send acknowledged dict_get dict_item
       get_object routed kwargs
       related Payment_save Booking_save send_booking_confirmation_email_delay
       write read raise mbind View_bind mret View_ret].

Lemma integrity_payment w k p :
  integrity w → payments w !! k = Some p →
  payment_id p = k ∧ k < next_payment_id w ∧
  ∃ b, bookings w !! payment_booking p = Some b.
Proof. intros [Hp _] Hk. by destruct (Hp k p Hk) as (? & ? & [b ?]); eauto. Qed.

Lemma integrity_booking w k b :
  integrity w → bookings w !! k = Some b →
  booking_id b = k ∧ k < next_booking_id w ∧
  (∃ u, users w !! booking_user b = Some u) ∧
  (∃ l, listings w !! booking_listing b = Some l).
Proof.
  intros [_ Hb] Hk. destruct (Hb k b Hk) as (? & ? & [u ?] & [l ?]); eauto 10.
Qed.

Lemma says_success_status body :
  says_success body →
  ∃ members, body = JObj members ∧
    eq_str (default JNull (members !! "status")) "success" = true.
Proof. intros (m & -> & Hm). exists m. by rewrite Hm. Qed.

Lemma eq_str_true v s : eq_str v s = true ↔ v = JStr s.
Proof.
  destruct v; simpl; try (split; [discriminate | intros [=]]).
  rewrite String.eqb_eq. split; [by intros -> | by intros [=]].
Qed.

Lemma reports_failure_status r :
  reports_failure r →
  reply_status_code r ≠ 200 ∨
  ∃ members, reply_json r = JObj members ∧
    eq_str (default JNull (members !! "status")) "success" = false.
Proof.
  intros [?|(m & Hm & Hs)]; [by left|right]. exists m; split; [done|].
  destruct (eq_str _ _) eqn:E; [|done]. apply eq_str_true in E.
  destruct (m !! "status") as [v|] eqn:Ev; simpl in E; by simplify_eq.
Qed.

(** ** verify_payment *)

(** C1.  A payment with a stored transaction identifier, in a database that
    keeps referential integrity: when the gateway answers the verify call
    with code 200 and a body whose status is ["success"], [verify_payment]
    returns a 200 response with status ["success"], the payment's row gets
    status [completed], the row of its booking gets status [confirmed],
    and exactly one confirmation job, for that booking, is added to the
    task queue.  The status the payment had before plays no part. *)
Theorem verify_payment_success env gw request w pk p r :
  integrity w →
  payments w !! pk = Some p →
  truthy (transaction_id p) = true →
  gw (verify_call env p) = Replied r →
  reply_status_code r = 200 →
  says_success (reply_json r) →
  ∃ resp b u l w',
    PaymentViewSet.verify_payment env gw (routed pk) request (Some pk) w = (Returns resp, w') ∧
    status_code resp = HTTP_200_OK ∧
    data resp !! "status" = Some (JStr "success") ∧
    payments w' = <[pk := with_payment_status completed p]> (payments w) ∧
    bookings w !! payment_booking p = Some b ∧
    bookings w' = <[payment_booking p := with_booking_status confirmed b]> (bookings w) ∧
    users w !! booking_user b = Some u ∧
    listings w !! booking_listing b = Some l ∧
    task_queue w' = (task_queue w ++
      [{| job_booking_id := payment_booking p;
          job_user_email := email u;
          job_listing_title := title l |}])%list.
Proof.
  intros Hw Hp Htid Hgw Hcode Hbody.
  destruct (integrity_payment _ _ _ Hw Hp) as (Hid & _ & b & Hb).
  destruct (integrity_booking _ _ _ Hw Hb) as (Hbid & _ & [u Hu] & [l Hl]).
  destruct (says_success_status _ Hbody) as (m & Hm & Hs).
  unfold verify_call in Hgw.
  exists {| status_code := HTTP_200_OK;
            data := {[ "status" := JStr "success";
                       "message" := JStr "Payment verified successfully" ]} |}, b, u, l.
  eexists. split.
  - unfold_view. rewrite lookup_singleton_eq. simpl. rewrite Hp, Htid. simpl.
    rewrite Hgw, Hcode. simpl. rewrite Hm, Hs. simpl. rewrite Hb. simpl. rewrite Hu. simpl. rewrite Hl. reflexivity.
  - simpl. rewrite Hid, Hbid. split_and!; try done.
Qed.

(** C5.  A payment with a stored transaction identifier: when the gateway
    answers the verify call with a reply that reports a failure (a code
    other than 200, or a body whose status is not ["success"]),
    [verify_payment] returns a 400 response that carries the gateway's
    body as its details, the payment's row gets status [failed], and the
    table of bookings and the task queue are left as they were. *)
Theorem verify_payment_failure env gw request w pk p r :
  integrity w →
  payments w !! pk = Some p →
  truthy (transaction_id p) = true →
  gw (verify_call env p) = Replied r →
  reports_failure r →
  ∃ resp w',
    PaymentViewSet.verify_payment env gw (routed pk) request (Some pk) w = (Returns resp, w') ∧
    status_code resp = HTTP_400_BAD_REQUEST ∧
    data resp !! "status" = Some (JStr "error") ∧
    data resp !! "details" = Some (reply_json r) ∧
    payments w' = <[pk := with_payment_status failed p]> (payments w) ∧
    bookings w' = bookings w ∧
    task_queue w' = task_queue w.
Proof.
  intros Hw Hp Htid Hgw Hr.
  destruct (integrity_payment _ _ _ Hw Hp) as (Hid & _).
  unfold verify_call in Hgw.
  exists {| status_code := HTTP_400_BAD_REQUEST;
            data := {[ "status" := JStr "error";
                       "message" := JStr "Payment verification failed";
                       "details" := reply_json r ]} |}.
  eexists. split.
  - unfold_view. rewrite lookup_singleton_eq. simpl. rewrite Hp, Htid. simpl.
    rewrite Hgw.
    destruct (reports_failure_status _ Hr) as [Hcode|(m & Hm & Hs)].
    + by rewrite bool_decide_eq_false_2.
    + case_bool_decide; [|done]. by rewrite Hm, Hs.
  - simpl. rewrite Hid. split_and!; done.
Qed.

(** C7.  A payment with a stored transaction identifier: when the verify
    call fails in transport, [verify_payment] returns a 503 response, and
    the tables of payments and of bookings and the task queue are left as
    they were. *)
Theorem verify_payment_transport_failure env gw request w pk p details :
  payments w !! pk = Some p →
  truthy (transaction_id p) = true →
  gw (verify_call env p) = RequestFailed details →
  ∃ resp w',
    PaymentViewSet.verify_payment env gw (routed pk) request (Some pk) w = (Returns resp, w') ∧
    status_code resp = HTTP_503_SERVICE_UNAVAILABLE ∧
    data resp !! "status" = Some (JStr "error") ∧
    data resp !! "details" = Some (JStr details) ∧
    payments w' = payments w ∧
    bookings w' = bookings w ∧
    task_queue w' = task_queue w.
Proof.
  intros Hp Htid Hgw. unfold verify_call in Hgw.
  exists {| status_code := HTTP_503_SERVICE_UNAVAILABLE;
            data := {[ "status" := JStr "error";
                       "message" := JStr "Failed to verify payment";
                       "details" := JStr details ]} |}.
  eexists. split.
  - unfold_view. rewrite lookup_singleton_eq. simpl. rewrite Hp, Htid. simpl.
    by rewrite Hgw.
  - done.
Qed.

(** C8.  A payment whose transaction identifier is absent (or empty):
    [verify_payment] returns a 400 response and leaves the whole state as
    it was; in particular no call to the gateway is made, whatever the
    gateway would have answered. *)
Theorem verify_payment_without_transaction_id env gw request w pk p :
  payments w !! pk = Some p →
  truthy (transaction_id p) = false →
  ∃ resp,
    PaymentViewSet.verify_payment env gw (routed pk) request (Some pk) w = (Returns resp, w) ∧
    status_code resp = HTTP_400_BAD_REQUEST ∧
    data resp !! "status" = Some (JStr "error") ∧
    data resp !! "message" = Some (JStr "No transaction ID found for this payment") ∧
    gateway_calls (after (PaymentViewSet.verify_payment env gw (routed pk) request (Some pk)) w)
      = gateway_calls w.
Proof.
  intros Hp Htid.
  assert (PaymentViewSet.verify_payment env gw (routed pk) request (Some pk) w =
    (Returns {| status_code := HTTP_400_BAD_REQUEST;
                data := {[ "status" := JStr "error";
                           "message" := JStr "No transaction ID found for this payment" ]} |},
     w)) as Hrun.
  { unfold_view. rewrite lookup_singleton_eq. simpl. by rewrite Hp, Htid. }
  eexists. split; [exact Hrun|]. unfold after. rewrite Hrun. done.
Qed.

(** ** initiate_payment *)

(** C4.  When the gateway answers the initiate call with code 200 and a
    body of the expected shape, status ["success"] and a [data] object,
    [initiate_payment] stores the transaction identifier and the checkout
    URL found in [data] on the payment, leaves its status as it was (a
    pending payment stays pending), leaves the bookings alone, and returns
    a 200 response that carries the checkout URL. *)
Theorem initiate_payment_success env gw request w pk p b u l r members d :
  integrity w →
  payments w !! pk = Some p →
  bookings w !! payment_booking p = Some b →
  users w !! booking_user b = Some u →
  listings w !! booking_listing b = Some l →
  gw (initiate_call env request p b u l) = Replied r →
  reply_status_code r = 200 →
  reply_json r = JObj members →
  members !! "status" = Some (JStr "success") →
  members !! "data" = Some (JObj d) →
  let tid := default JNull (d !! "transaction_id") in
  let curl := default JNull (d !! "checkout_url") in
  let p' := with_payment_url curl (with_transaction_id tid p) in
  ∃ resp w',
    PaymentViewSet.initiate_payment env gw (routed pk) request (Some pk) w = (Returns resp, w') ∧
    status_code resp = HTTP_200_OK ∧
    data resp !! "status" = Some (JStr "success") ∧
    data resp !! "payment_url" = Some curl ∧
    payments w' = <[pk := p']> (payments w) ∧
    transaction_id p' = tid ∧
    payment_url p' = curl ∧
    payment_status p' = payment_status p ∧
    bookings w' = bookings w.
Proof.
  intros Hw Hp Hb Hu Hl Hgw Hcode Hjson Hs Hd tid curl p'.
  destruct (integrity_payment _ _ _ Hw Hp) as (Hid & _).
  unfold initiate_call in Hgw.
  exists {| status_code := HTTP_200_OK;
            data := {[ "status" := JStr "success";
                       "message" := JStr "Payment initiated successfully";
                       "payment_url" := curl ]} |}.
  eexists. split.
  - unfold_view. rewrite lookup_singleton_eq. simpl. rewrite Hp. simpl.
    rewrite Hb. simpl. rewrite Hu. simpl. rewrite Hl. simpl.
    rewrite Hgw, Hcode. simpl. rewrite Hjson, Hs. simpl. rewrite Hd. reflexivity.
  - simpl. rewrite Hid. split_and!; done.
Qed.

(** C10.  Whatever the gateway answers, and whether the action returns or
    raises, [initiate_payment] leaves the table of bookings as it was: the
    action of the payment viewset, and the action of the booking viewset
    that hands over to it. *)
Theorem initiate_payment_leaves_bookings env gw self request arg w :
  bookings (after (PaymentViewSet.initiate_payment env gw self request arg) w)
    = bookings w ∧
  bookings (after (BookingViewSet.initiate_payment env gw self request arg) w)
    = bookings w.
Proof.
  split; unfold_view; by repeat (case_match; simplify_eq/=).
Qed.

(** ** perform_create *)

Lemma no_payment_of_next_booking w k p :
  integrity w → payments w !! k = Some p → payment_booking p ≠ next_booking_id w.
Proof.
  intros Hw Hp Heq.
  destruct (integrity_payment _ _ _ Hw Hp) as (_ & _ & b & Hb).
  destruct (integrity_booking _ _ _ Hw Hb) as (_ & Hlt & _). lia.
Qed.

Lemma next_payment_id_free w : integrity w → payments w !! next_payment_id w = None.
Proof.
  intros Hw. destruct (payments w !! next_payment_id w) as [p|] eqn:Hp; [|done].
  destruct (integrity_payment _ _ _ Hw Hp) as (_ & ? & _). lia.
Qed.

Lemma next_booking_id_free w : integrity w → bookings w !! next_booking_id w = None.
Proof.
  intros Hw. destruct (bookings w !! next_booking_id w) as [b|] eqn:Hb; [|done].
  destruct (integrity_booking _ _ _ Hw Hb) as (_ & ? & _). lia.
Qed.

(** C2.  Creating a booking for an existing listing and user, in a
    database that keeps referential integrity, adds the booking and one
    payment under fresh keys; that payment is the only one of the new
    booking, its amount is the booking's total price, its status is
    [pending], its currency is ["ETB"]; and one confirmation job is added
    to the task queue. *)
Theorem perform_create_one_payment env v w u l :
  integrity w →
  users w !! data_user v = Some u →
  listings w !! data_listing v = Some l →
  let b := new_booking v w in
  let p := new_payment env b w in
  ∃ w',
    BookingViewSet.perform_create env v w = (Returns b, w') ∧
    bookings w !! booking_id b = None ∧
    bookings w' = <[booking_id b := b]> (bookings w) ∧
    total_price b = data_total_price v ∧
    payments w !! payment_id p = None ∧
    payments w' = <[payment_id p := p]> (payments w) ∧
    filter (λ row, payment_booking row.2 = booking_id b) (payments w')
      = {[ payment_id p := p ]} ∧
    amount p = total_price b ∧
    payment_status p = pending ∧
    currency p = "ETB" ∧
    task_queue w' = (task_queue w ++
      [{| job_booking_id := booking_id b;
          job_user_email := email u;
          job_listing_title := title l |}])%list.
Proof.
  intros Hw Hu Hl b p.
  eexists. split.
  - unfold_view. rewrite Hl, Hu. simpl. rewrite Hu. simpl. rewrite Hl. reflexivity.
  - simpl. split_and!; try done.
    + by apply next_booking_id_free.
    + by apply next_payment_id_free.
    + rewrite map_filter_insert_True by done.
      rewrite map_empty_filter_2; [done|].
      intros k q Hq Hbk. simpl in Hbk.
      by apply (no_payment_of_next_booking w k q).
Qed.

(** ** The callback URL and the routes *)

Lemma string_app_nil (b : string) : "" +:+ b = b.
Proof. reflexivity. Qed.

Lemma string_app_cons x (a b : string) : String x a +:+ b = String x (a +:+ b).
Proof. reflexivity. Qed.

Lemma string_app_assoc (a b c : string) : a +:+ (b +:+ c) = (a +:+ b) +:+ c.
Proof.
  induction a as [|x a IH]; [done|].
  rewrite !string_app_cons. by rewrite IH.
Qed.

Lemma string_app_length (a b : string) :
  String.length (a +:+ b) = (String.length a + String.length b)%nat.
Proof.
  induction a as [|x a IH]; [done|].
  rewrite string_app_cons. simpl. by rewrite IH.
Qed.

Lemma string_drop_app (a b : string) : string_drop (String.length a) (a +:+ b) = b.
Proof.
  induction a as [|x a IH]; [by destruct b|].
  by rewrite string_app_cons.
Qed.

Lemma string_app_same_suffix (x y s t : string) :
  String.length s = String.length t → x +:+ s = y +:+ t → s = t.
Proof.
  intros Hlen Heq.
  assert (String.length x = String.length y) as Hxy.
  { apply (f_equal String.length) in Heq. rewrite !string_app_length in Heq. lia. }
  apply (f_equal (string_drop (String.length x))) in Heq.
  rewrite string_drop_app in Heq. rewrite Hxy in Heq.
  by rewrite string_drop_app in Heq.
Qed.

Lemma verify_is_not_verify_payment (x y : string) :
  x +:+ "/verify/" ≠ y +:+ "/verify_payment/".
Proof.
  intros Heq.
  change (y +:+ "/verify_payment/") with (y +:+ ("/verify_" +:+ "payment/")) in Heq.
  rewrite string_app_assoc in Heq.
  by apply string_app_same_suffix in Heq.
Qed.

(** C9.  The callback URL sent for the scenario's payment is
    [http://testserver/api/payments/1/verify/]; below the mount point no
    route answers [payments/1/verify/], the verify action being served at
    [payments/1/verify_payment/]; and wherever the project mounts the
    application, the callback URL of a payment differs from the URL of
    its verify action. *)
Theorem callback_url_misses_verify_route :
  PaymentViewSet.callback_url scenario_request scenario_payment
    = "http://testserver/api/payments/1/verify/" ∧
  resolve "payments/1/verify/" = None ∧
  resolve "payments/1/verify_payment/" = Some (payment_verify_payment "1") ∧
  ∀ request mount payment,
    PaymentViewSet.callback_url request payment
      ≠ verify_endpoint_url request mount (payment_id payment).
Proof.
  split_and!; [by vm_compute..|].
  intros request mount payment.
  unfold PaymentViewSet.callback_url, verify_endpoint_url, route.
  rewrite !string_app_assoc. apply verify_is_not_verify_payment.
Qed.

(** ** What each view may change *)

Lemma after_bind {A B} (m : View A) (f : A → View B) w :
  after (m ≫= f) w = match m w with
                     | (Returns a, w1) => after (f a) w1
                     | (Raises _, w1) => w1
                     end.
Proof. unfold after, mbind, View_bind. by destruct (m w) as [[a|e] w1]. Qed.

Lemma bind_run {A B} (m : View A) (f : A → View B) w :
  (m ≫= f) w = match m w with
               | (Returns a, w') => f a w'
               | (Raises e, w') => (Raises e, w')
               end.
Proof. reflexivity. Qed.

Lemma get_object_routed {R} (table : World → gmap Z R) pk w :
  get_object table (routed pk) w =
    match table w !! pk with
    | Some r => (Returns r, w)
    | None => (Raises Http404, w)
    end.
Proof.
  unfold get_object, routed; simpl. rewrite lookup_singleton_eq.
  rewrite bind_run; unfold read. by destruct (table w !! pk).
Qed.

Lemma initiate_payment_shape env gw self request arg w :
  let w' := after (PaymentViewSet.initiate_payment env gw self request arg) w in
  listings w' = listings w ∧ users w' = users w ∧ bookings w' = bookings w ∧
  next_booking_id w' = next_booking_id w ∧
  next_payment_id w' = next_payment_id w ∧
  task_queue w' = task_queue w ∧
  (payments w' = payments w ∨
   ∃ k p tid curl, payments w !! k = Some p ∧
     payments w' = <[payment_id p := with_payment_url curl (with_transaction_id tid p)]>
                     (payments w)).
Proof.
  unfold_view.
  repeat (case_match; simplify_eq/=); split_and!; eauto 10.
Qed.

Lemma verify_payment_shape env gw request pk w :
  let w' := after (PaymentViewSet.verify_payment env gw (routed pk) request (Some pk)) w in
  listings w' = listings w ∧ users w' = users w ∧
  next_booking_id w' = next_booking_id w ∧
  next_payment_id w' = next_payment_id w ∧
  (payments w' = payments w ∨
   ∃ p st, payments w !! pk = Some p ∧ st ≠ pending ∧
     payments w' = <[payment_id p := with_payment_status st p]> (payments w)) ∧
  (bookings w' = bookings w ∨
   ∃ p b, payments w !! pk = Some p ∧ bookings w !! payment_booking p = Some b ∧
     bookings w' = <[booking_id b := with_booking_status confirmed b]> (bookings w)).
Proof.
  unfold_view. rewrite lookup_singleton_eq.
  repeat (case_match; simplify_eq/=); split_and!; eauto;
    refine (or_intror (ex_intro _ _ (ex_intro _ _ (conj eq_refl (conj _ eq_refl)))));
    done.
Qed.

Lemma pending_payment_shape env b w :
  let w' := after (BookingViewSet.pending_payment env b) w in
  listings w' = listings w ∧ users w' = users w ∧ bookings w' = bookings w ∧
  next_booking_id w' = next_booking_id w ∧
  task_queue w' = task_queue w ∧
  ((payments w' = payments w ∧ next_payment_id w' = next_payment_id w) ∨
   (filter (pending_for b) (payments w) = ∅ ∧
    payments w' = <[next_payment_id w := new_payment env b w]> (payments w) ∧
    next_payment_id w' = next_payment_id w + 1)).
Proof.
  unfold_view.
  repeat (case_match; simplify_eq/=); split_and!; eauto 10.
  right. split_and!; try done. by apply map_to_list_empty_iff.
Qed.

Lemma perform_create_shape env v w :
  let w' := after (BookingViewSet.perform_create env v) w in
  listings w' = listings w ∧ users w' = users w ∧
  ((payments w' = payments w ∧ bookings w' = bookings w ∧
    next_booking_id w' = next_booking_id w ∧
    next_payment_id w' = next_payment_id w) ∨
   (is_Some (users w !! data_user v) ∧ is_Some (listings w !! data_listing v) ∧
    bookings w' = <[next_booking_id w := new_booking v w]> (bookings w) ∧
    payments w' = <[next_payment_id w := new_payment env (new_booking v w) w]>
                    (payments w) ∧
    next_booking_id w' = next_booking_id w + 1 ∧
    next_payment_id w' = next_payment_id w + 1)).
Proof.
  unfold_view.
  repeat (case_match; simplify_eq/=); split_and!; eauto 10.
Qed.

Lemma booking_initiate_shape env gw pk request w :
  let w' := after (BookingViewSet.initiate_payment env gw (routed pk) request (Some pk)) w in
  ∃ w1,
    (w1 = w ∨ ∃ b, bookings w !! pk = Some b ∧
                   w1 = after (BookingViewSet.pending_payment env b) w) ∧
    (w' = w1 ∨
     ∃ arg, w' = after (PaymentViewSet.initiate_payment env gw
                          BookingViewSet.payment_viewset request arg) w1).
Proof.
  unfold BookingViewSet.initiate_payment. simpl.
  rewrite after_bind, get_object_routed.
  destruct (bookings w !! pk) as [b|] eqn:Hb; [|exists w; split; by left].
  rewrite after_bind.
  exists (after (BookingViewSet.pending_payment env b) w).
  split; [by eauto|].
  destruct (BookingViewSet.pending_payment env b w) as [[p|e] w1] eqn:E.
  - right. exists (Some (payment_id p)). unfold after. by rewrite E.
  - left. unfold after. by rewrite E.
Qed.

(** ** Replies outside the expected shape, and the call handed over *)

(** X5.  A 200 reply whose body is not an object: [.get] raises, the
    exception is not a [RequestException], and the payment is left as it
    was. *)
Lemma verify_payment_body_not_a_dict env gw request w pk p r :
  payments w !! pk = Some p →
  truthy (transaction_id p) = true →
  gw (verify_call env p) = Replied r →
  reply_status_code r = 200 →
  (∀ members, reply_json r ≠ JObj members) →
  ∃ w', PaymentViewSet.verify_payment env gw (routed pk) request (Some pk) w
          = (Raises AttributeError, w') ∧
        payments w' = payments w ∧ bookings w' = bookings w.
Proof.
  intros Hp Htid Hgw Hcode Hbody. unfold verify_call in Hgw.
  eexists. split.
  - unfold_view. rewrite lookup_singleton_eq. simpl. rewrite Hp, Htid. simpl.
    rewrite Hgw, Hcode. simpl.
    destruct (reply_json r) as [| | | | |members] eqn:Hr; try reflexivity.
    by destruct (Hbody members).
  - done.
Qed.

(** X3.  A 200 reply with status ["success"] and no ["data"]: the
    subscript raises [KeyError], and the payment is left as it was. *)
Lemma initiate_payment_without_data env gw request w pk p b u l r members :
  payments w !! pk = Some p →
  bookings w !! payment_booking p = Some b →
  users w !! booking_user b = Some u →
  listings w !! booking_listing b = Some l →
  gw (initiate_call env request p b u l) = Replied r →
  reply_status_code r = 200 →
  reply_json r = JObj members →
  members !! "status" = Some (JStr "success") →
  members !! "data" = None →
  ∃ w', PaymentViewSet.initiate_payment env gw (routed pk) request (Some pk) w
          = (Raises (KeyError "data"), w') ∧
        payments w' = payments w.
Proof.
  intros Hp Hb Hu Hl Hgw Hcode Hjson Hs Hd. unfold initiate_call in Hgw.
  eexists. split.
  - unfold_view. rewrite lookup_singleton_eq. simpl. rewrite Hp. simpl.
    rewrite Hb. simpl. rewrite Hu. simpl. rewrite Hl. simpl.
    rewrite Hgw, Hcode. simpl. rewrite Hjson, Hs. simpl. rewrite Hd. reflexivity.
  - done.
Qed.

(** The viewset that [BookingViewSet.initiate_payment] builds has no
    [kwargs]: the action it is handed raises in [get_object], before
    anything is sent or written. *)
Lemma handed_over_call_raises env gw request arg w :
  PaymentViewSet.initiate_payment env gw BookingViewSet.payment_viewset request arg w
    = (Raises AttributeError, w).
Proof. reflexivity. Qed.

(** ** The two invariants *)

Lemma one_pending_spec w :
  one_pending w ↔
  ∀ k1 p1 k2 p2,
    payments w !! k1 = Some p1 → payments w !! k2 = Some p2 →
    payment_booking p1 = payment_booking p2 →
    payment_status p1 = pending → payment_status p2 = pending → k1 = k2.
Proof. unfold one_pending, same_pending, map_Forall. naive_solver. Qed.




Lemma integrity_evolves w w' :
  integrity w →
  listings w' = listings w → users w' = users w →
  (next_payment_id w ≤ next_payment_id w')%Z →
  (next_booking_id w ≤ next_booking_id w')%Z →
  (∀ j, is_Some (bookings w !! j) → is_Some (bookings w' !! j)) →
  (∀ k p, payments w' !! k = Some p →
          payments w !! k = Some p ∨ payment_row_ok w' k p) →
  (∀ k b, bookings w' !! k = Some b →
          bookings w !! k = Some b ∨ booking_row_ok w' k b) →
  integrity w'.
Proof.
  intros [Hps Hbs] Hl Hu Hnp Hnb Hdom Hp Hb. split.
  - intros k p Hk. destruct (Hp k p Hk) as [Hold|?]; [|done].
    destruct (Hps k p Hold) as (? & ? & ?). split_and!; [done|lia|by apply Hdom].
  - intros k b Hk. destruct (Hb k b Hk) as [Hold|?]; [|done].
    destruct (Hbs k b Hold) as (? & ? & ? & ?). unfold booking_row_ok. rewrite Hl, Hu.
    split_and!; [done|lia|done|done].
Qed.

Lemma initiate_payment_integrity env gw self request arg w :
  integrity w →
  integrity (after (PaymentViewSet.initiate_payment env gw self request arg) w).
Proof.
  intros Hw.
  destruct (initiate_payment_shape env gw self request arg w)
    as (Hl & Hu & Hb & Hnb & Hnp & _ & Hp).
  apply (integrity_evolves w); try done; try lia.
  - intros j. by rewrite Hb.
  - intros k p Hk. destruct Hp as [Hp|(j & q & tid & curl & Hq & Hp)].
    { left. by rewrite <-Hp. }
    destruct (integrity_payment _ _ _ Hw Hq) as (Hid & Hlt & Hbk).
    rewrite Hp, lookup_insert in Hk. case_decide; simplify_eq; [right|by left].
    unfold payment_row_ok. rewrite Hnp, Hb. split_and!; [done|lia|done].
  - intros k b. rewrite Hb. by left.
Qed.


Lemma verify_payment_integrity env gw request pk w :
  integrity w →
  integrity (after (PaymentViewSet.verify_payment env gw (routed pk) request (Some pk)) w).
Proof.
  intros Hw.
  destruct (verify_payment_shape env gw request pk w) as (Hl & Hu & Hnb & Hnp & Hp & Hb).
  assert (∀ j, is_Some (bookings w !! j) →
    is_Some (bookings (after (PaymentViewSet.verify_payment env gw (routed pk) request (Some pk)) w) !! j))
    as Hdom.
  { intros j Hj. destruct Hb as [->|(q & b & _ & _ & ->)]; [done|].
    rewrite lookup_insert. by case_decide. }
  apply (integrity_evolves w); try done; try lia.
  - intros k p Hk. destruct Hp as [Hp|(q & st & Hq & _ & Hp)].
    { left. by rewrite <-Hp. }
    destruct (integrity_payment _ _ _ Hw Hq) as (Hid & Hlt & Hbk).
    rewrite Hp, lookup_insert in Hk. case_decide; simplify_eq; [right|by left].
    unfold payment_row_ok. rewrite Hnp. split_and!; [done|lia|by apply Hdom].
  - intros k b Hk. destruct Hb as [Hb|(q & b0 & _ & Hb0 & Hb)].
    { left. by rewrite <-Hb. }
    destruct (integrity_booking _ _ _ Hw Hb0) as (Hid & Hlt & Hus & Hls).
    rewrite Hb, lookup_insert in Hk. case_decide; simplify_eq; [right|by left].
    unfold booking_row_ok. rewrite Hnb, Hl, Hu. simpl.
    destruct Hus as [u ->], Hls as [l ->]. split_and!; [done|lia|done|done].
Qed.


Lemma pending_payment_integrity env b w :
  integrity w → is_Some (bookings w !! booking_id b) →
  integrity (after (BookingViewSet.pending_payment env b) w).
Proof.
  intros Hw Hbk.
  destruct (pending_payment_shape env b w) as (Hl & Hu & Hb & Hnb & _ & Hp).
  apply (integrity_evolves w); try done.
  - destruct Hp as [[_ ->]|(_ & _ & ->)]; lia.
  - lia.
  - intros j. by rewrite Hb.
  - intros k p Hk. destruct Hp as [[Hp _]|(_ & Hp & Hnp)].
    { left. by rewrite <-Hp. }
    rewrite Hp, lookup_insert in Hk. case_decide; simplify_eq; [right|by left].
    unfold payment_row_ok. rewrite Hnp, Hb. simpl. split_and!; [done|lia|done].
  - intros k b0. rewrite Hb. by left.
Qed.


Lemma perform_create_integrity env v w :
  integrity w → integrity (after (BookingViewSet.perform_create env v) w).
Proof.
  intros Hw.
  destruct (perform_create_shape env v w)
    as (Hl & Hu & [(Hp & Hb & Hnb & Hnp)|(Hus & Hls & Hb & Hp & Hnb & Hnp)]).
  { apply (integrity_evolves w); try done; try lia.
    - intros j. by rewrite Hb.
    - intros k p. rewrite Hp. by left.
    - intros k b. rewrite Hb. by left. }
  apply (integrity_evolves w); try done; try lia.
  - intros j Hj. rewrite Hb, lookup_insert. by case_decide.
  - intros k p Hk.
    rewrite Hp, lookup_insert in Hk. case_decide; simplify_eq; [right|by left].
    unfold payment_row_ok. rewrite Hnp, Hb. simpl. rewrite lookup_insert_eq.
    split_and!; [done|lia|done].
  - intros k b Hk.
    rewrite Hb, lookup_insert in Hk. case_decide; simplify_eq; [right|by left].
    unfold booking_row_ok. rewrite Hnb, Hl, Hu. simpl. split_and!; [done|lia|done|done].
Qed.






(** ** Looking up the pending payment of a booking *)

Lemma get_pending_run b w :
  one_pending w →
  (filter (pending_for b) (payments w) = ∅ ∧
   Payment_objects_get_pending b w = (Raises (DoesNotExist PaymentModel), w)) ∨
  (∃ k p, payments w !! k = Some p ∧ pending_for b (k, p) ∧
          Payment_objects_get_pending b w = (Returns p, w)).
Proof.
  intros Hone. unfold Payment_objects_get_pending. rewrite bind_run. unfold read.
  destruct (map_to_list (filter (pending_for b) (payments w)))
    as [|[k p] [|[k2 p2] rest]] eqn:E.
  - left. split; [by apply map_to_list_empty_iff|done].
  - right. exists k, p.
    assert ((k, p) ∈ map_to_list (filter (pending_for b) (payments w))) as Hin
      by (rewrite E; set_solver).
    apply elem_of_map_to_list, map_lookup_filter_Some in Hin as [Hk Hpend]. done.
  - exfalso.
    assert ((k, p) ∈ map_to_list (filter (pending_for b) (payments w))) as Hin1
      by (rewrite E; set_solver).
    assert ((k2, p2) ∈ map_to_list (filter (pending_for b) (payments w))) as Hin2
      by (rewrite E; set_solver).
    apply elem_of_map_to_list, map_lookup_filter_Some in Hin1 as [Hk1 [Hb1 Hs1]].
    apply elem_of_map_to_list, map_lookup_filter_Some in Hin2 as [Hk2 [Hb2 Hs2]].
    simpl in *.
    assert (k = k2) as <-.
    { apply (proj1 (one_pending_spec w) Hone k p k2 p2); congruence. }
    assert (p2 = p) as -> by congruence.
    pose proof (NoDup_map_to_list (filter (pending_for b) (payments w))) as Hnd.
    rewrite E in Hnd. apply NoDup_cons in Hnd as [Hnotin _]. set_solver.
Qed.

Lemma Payment_objects_create_run env b w :
  Payment_objects_create env b (total_price b) "ETB" w =
    (Returns (new_payment env b w),
     set_payments (insert (next_payment_id w) (new_payment env b w))
       (bump_payment_id w)).
Proof. reflexivity. Qed.

Lemma pending_payment_run env b w :
  one_pending w →
  (∃ k p, payments w !! k = Some p ∧ pending_for b (k, p) ∧
          BookingViewSet.pending_payment env b w = (Returns p, w)) ∨
  (filter (pending_for b) (payments w) = ∅ ∧
   ∃ w', BookingViewSet.pending_payment env b w = (Returns (new_payment env b w), w') ∧
         payments w' = <[next_payment_id w := new_payment env b w]> (payments w) ∧
         bookings w' = bookings w).
Proof.
  intros Hone. unfold BookingViewSet.pending_payment, try_except_Payment_DoesNotExist.
  destruct (get_pending_run b w Hone) as [[Hnone ->]|(k & p & Hk & Hpend & ->)].
  - right. split; [done|]. rewrite Payment_objects_create_run. by eexists.
  - left. by exists k, p.
Qed.




(** ** The claims about the invariant and about terminal statuses *)


(** C6, as amended.  None of the four operations that [views.py] defines
    ([perform_create], the two [initiate_payment] actions,
    [verify_payment]) deletes a payment that is [completed] or [failed]
    or moves it back to [pending], and the only one of them after which
    such a payment has another status than before is [verify_payment] on
    that very payment.  The update and destroy that the payments resource
    inherits are not among the four. *)
Theorem terminal_status_never_pending env op w k p :
  integrity w →
  payments w !! k = Some p →
  payment_status p ≠ pending →
  ∃ p',
    payments (step env op w) !! k = Some p' ∧
    payment_status p' ≠ pending ∧
    (payment_status p' ≠ payment_status p →
     ∃ request gw, op = payment_verify k request gw).
Proof.
  intros Hw Hk Hst.
  destruct (integrity_payment _ _ _ Hw Hk) as (Hid & Hlt & _).
  assert (∀ env gw self request arg w0,
    integrity w0 → payments w0 !! k = Some p →
    ∃ p', payments (after (PaymentViewSet.initiate_payment env gw self request arg) w0) !! k
            = Some p' ∧ payment_status p' = payment_status p) as Hinit.
  { intros env' gw self request arg w0 Hw0 Hk0.
    destruct (initiate_payment_shape env' gw self request arg w0)
      as (_ & _ & _ & _ & _ & _ & [->|(j & q & tid & curl & Hq & ->)]); [by eauto|].
    destruct (integrity_payment _ _ _ Hw0 Hq) as (-> & _).
    rewrite lookup_insert. case_decide; simplify_eq; eauto. }
  destruct op as [v|pk request gw|pk request gw|pk request gw]; simpl.
  - destruct (perform_create_shape env v w)
      as (_ & _ & [(-> & _)|(_ & _ & _ & -> & _)]).
    + exists p. by split_and!.
    + rewrite lookup_insert_ne by lia. exists p. by split_and!.
  - destruct (booking_initiate_shape env gw pk request w) as (w1 & Hw1 & Hw').
    assert (integrity w1 ∧ payments w1 !! k = Some p) as [Hi1 Hk1].
    { destruct Hw1 as [->|(b & Hb & ->)]; [done|].
      destruct (integrity_booking _ _ _ Hw Hb) as (Hbid & _).
      split. { apply pending_payment_integrity; [done|]. by rewrite Hbid, Hb. }
      destruct (pending_payment_shape env b w)
        as (_ & _ & _ & _ & _ & [[-> _]|(_ & -> & _)]); [done|].
      by rewrite lookup_insert_ne by lia. }
    destruct Hw' as [->|[arg ->]].
    + exists p. by split_and!.
    + destruct (Hinit env gw BookingViewSet.payment_viewset request arg w1 Hi1 Hk1)
        as (p' & Hp' & Hst').
      exists p'. split_and!; [done|congruence|congruence].
  - destruct (Hinit env gw (routed pk) request (Some pk) w Hw Hk) as (p' & Hp' & Hst').
    exists p'. split_and!; [done|congruence|congruence].
  - destruct (verify_payment_shape env gw request pk w)
      as (_ & _ & _ & _ & [->|(q & st & Hq & Hne & ->)] & _).
    + exists p. by split_and!.
    + destruct (integrity_payment _ _ _ Hw Hq) as (-> & _).
      rewrite lookup_insert. case_decide; simplify_eq.
      * exists (with_payment_status st p). split_and!; eauto.
      * exists p. by split_and!.
Qed.

(** ** The scenario, claim by claim *)

Ltac by_compute := apply (bool_decide_unpack _); vm_compute; exact I.

(** C1 in the scenario: verifying the registered payment. *)
Lemma verify_payment_success_witness :
  ∃ resp w',
    PaymentViewSet.verify_payment scenario_env (answering (Replied reply_verified))
      (routed 1) scenario_request (Some 1) scenario_initiated = (Returns resp, w') ∧
    status_code resp = HTTP_200_OK ∧
    payment_status <$> payments w' !! 1 = Some completed ∧
    booking_status <$> bookings w' !! 1 = Some confirmed ∧
    length (task_queue w') = S (length (task_queue scenario_initiated)).
Proof.
  destruct (verify_payment_success scenario_env (answering (Replied reply_verified))
              scenario_request scenario_initiated 1 scenario_registered reply_verified)
    as (resp & b & u & l & w' & Hrun & Hcode & _ & Hp & Hb & Hb' & _ & _ & Hq).
  - by_compute.
  - vm_compute; reflexivity.
  - vm_compute; reflexivity.
  - reflexivity.
  - reflexivity.
  - eexists. split; reflexivity.
  - exists resp, w'. rewrite Hp, Hb', Hq. split_and!; [done|done| | |].
    + by rewrite lookup_insert_eq.
    + change (payment_booking scenario_registered) with 1.
      by rewrite lookup_insert_eq.
    + rewrite length_app. simpl. lia.
Defined.

(** C2 in the scenario: the booking of 400.00 and its payment. *)
Lemma perform_create_one_payment_witness :
  ∃ w',
    BookingViewSet.perform_create scenario_env scenario_booking scenario_start
      = (Returns (new_booking scenario_booking scenario_start), w') ∧
    payments w' = {[ 1 := scenario_payment ]} ∧
    str_Decimal (amount scenario_payment) = "400.00" ∧
    payment_status scenario_payment = pending ∧
    currency scenario_payment = "ETB" ∧
    length (task_queue w') = 1%nat.
Proof.
  destruct (perform_create_one_payment scenario_env scenario_booking scenario_start
              {| user_id := 1; email := "guest@example.com";
                 first_name := "Abel"; last_name := "B" |}
              {| listing_id := 1; title := "Lake house" |})
    as (w' & Hrun & _ & _ & _ & _ & Hp & _ & _ & _ & _ & Hq).
  - by_compute.
  - reflexivity.
  - reflexivity.
  - exists w'. rewrite Hp, Hq. split_and!; [done| |by vm_compute|done|done|done].
    reflexivity.
Defined.


(** C4 in the scenario: the gateway registers [tx_123]. *)
Lemma initiate_payment_success_witness :
  ∃ resp w',
    PaymentViewSet.initiate_payment scenario_env (answering (Replied reply_initiated))
      (routed 1) scenario_request (Some 1) scenario_booked = (Returns resp, w') ∧
    status_code resp = HTTP_200_OK ∧
    data resp !! "payment_url" = Some (JStr "https://pay.example/tx_123") ∧
    payments w' !! 1 = Some scenario_registered ∧
    payment_status scenario_registered = pending.
Proof.
  destruct (initiate_payment_success scenario_env (answering (Replied reply_initiated))
              scenario_request scenario_booked 1 scenario_payment
              (new_booking scenario_booking scenario_start)
              {| user_id := 1; email := "guest@example.com";
                 first_name := "Abel"; last_name := "B" |}
              {| listing_id := 1; title := "Lake house" |}
              reply_initiated
              {[ "status" := JStr "success";
                 "data" := JObj {[ "transaction_id" := JStr "tx_123";
                                   "checkout_url" := JStr "https://pay.example/tx_123" ]} ]}
              {[ "transaction_id" := JStr "tx_123";
                 "checkout_url" := JStr "https://pay.example/tx_123" ]})
    as (resp & w' & Hrun & Hcode & _ & Hurl & Hp & _).
  - by_compute.
  - vm_compute; reflexivity.
  - vm_compute; reflexivity.
  - vm_compute; reflexivity.
  - vm_compute; reflexivity.
  - reflexivity.
  - reflexivity.
  - reflexivity.
  - vm_compute; reflexivity.
  - vm_compute; reflexivity.
  - exists resp, w'. split_and!; [done|done|exact Hurl| |done].
    by rewrite Hp, lookup_insert_eq.
Defined.

(** C5 in the scenario: the gateway answers [{status: failed}]. *)
Lemma verify_payment_failure_witness :
  ∃ resp w',
    PaymentViewSet.verify_payment scenario_env (answering (Replied reply_declined))
      (routed 1) scenario_request (Some 1) scenario_initiated = (Returns resp, w') ∧
    status_code resp = HTTP_400_BAD_REQUEST ∧
    payment_status <$> payments w' !! 1 = Some failed ∧
    booking_status <$> bookings w' !! 1 = Some booking_pending.
Proof.
  destruct (verify_payment_failure scenario_env (answering (Replied reply_declined))
              scenario_request scenario_initiated 1 scenario_registered reply_declined)
    as (resp & w' & Hrun & Hcode & _ & _ & Hp & Hb & _).
  - by_compute.
  - vm_compute; reflexivity.
  - vm_compute; reflexivity.
  - reflexivity.
  - right. eexists. split; [reflexivity|]. by vm_compute.
  - exists resp, w'. rewrite Hp, Hb. split_and!; [done|done| |by vm_compute].
    by rewrite lookup_insert_eq.
Defined.

(** C7 in the scenario: the verify call times out. *)
Lemma verify_payment_transport_failure_witness :
  ∃ resp w',
    PaymentViewSet.verify_payment scenario_env (answering (RequestFailed "timed out"))
      (routed 1) scenario_request (Some 1) scenario_initiated = (Returns resp, w') ∧
    status_code resp = HTTP_503_SERVICE_UNAVAILABLE ∧
    payments w' = payments scenario_initiated ∧
    bookings w' = bookings scenario_initiated.
Proof.
  destruct (verify_payment_transport_failure scenario_env
              (answering (RequestFailed "timed out")) scenario_request
              scenario_initiated 1 scenario_registered "timed out")
    as (resp & w' & Hrun & Hcode & _ & _ & Hp & Hb & _).
  - vm_compute; reflexivity.
  - vm_compute; reflexivity.
  - reflexivity.
  - by exists resp, w'.
Defined.

(** C8 in the scenario: verifying before any initiation. *)
Lemma verify_payment_without_transaction_id_witness :
  ∃ resp,
    PaymentViewSet.verify_payment scenario_env (answering (Replied reply_verified))
      (routed 1) scenario_request (Some 1) scenario_booked
      = (Returns resp, scenario_booked) ∧
    status_code resp = HTTP_400_BAD_REQUEST ∧
    gateway_calls scenario_booked = [].
Proof.
  destruct (verify_payment_without_transaction_id scenario_env
              (answering (Replied reply_verified)) scenario_request
              scenario_booked 1 scenario_payment)
    as (resp & Hrun & Hcode & _).
  - vm_compute; reflexivity.
  - reflexivity.
  - exists resp. split_and!; [done|done|by vm_compute].
Defined.


(** C6 as first stated does not hold.  A second verification, on the
    payment that the first one completed:
    the gateway now reports a failure and the payment becomes [failed];
    asked once more, it reports success and the payment is [completed]
    again. *)
Lemma completed_and_failed_are_left :
  let declined := payment_verify 1 scenario_request (answering (Replied reply_declined)) in
  let verified := payment_verify 1 scenario_request (answering (Replied reply_verified)) in
  scenario_completed =
    run scenario_env
      [create_booking scenario_booking;
       payment_initiate 1 scenario_request (answering (Replied reply_initiated));
       verified]
      scenario_start ∧
  payment_status <$> payments scenario_completed !! 1 = Some completed ∧
  payment_status <$>
    payments (step scenario_env declined scenario_completed) !! 1 = Some failed ∧
  payment_status <$>
    payments (run scenario_env [declined; verified] scenario_completed) !! 1
    = Some completed.
Proof. split_and!; by vm_compute. Qed.

(** C6 as amended, in the scenario: the completed payment, verified again. *)
Lemma terminal_status_never_pending_witness :
  ∃ p',
    payments (step scenario_env (payment_verify 1 scenario_request (answering (Replied reply_declined)))
                scenario_completed) !! 1 = Some p' ∧
    payment_status p' ≠ pending.
Proof.
  destruct (terminal_status_never_pending scenario_env
              (payment_verify 1 scenario_request (answering (Replied reply_declined)))
              scenario_completed 1 (with_payment_status completed scenario_registered))
    as (p' & Hp' & Hst & _).
  - by_compute.
  - vm_compute; reflexivity.
  - discriminate.
  - by exists p'.
Defined.

(** * Further properties of the views *)

(** ** initiate_payment: the other exits *)

(** X1.  When the gateway answers the initiate call with a reply that
    reports a failure, [initiate_payment] returns a 400 response with the
    gateway's body as its details, and nothing but the record of the call
    is added to the state: no row is written and no job is enqueued. *)
Theorem initiate_payment_gateway_failure env gw request w pk p b u l r :
  payments w !! pk = Some p →
  bookings w !! payment_booking p = Some b →
  users w !! booking_user b = Some u →
  listings w !! booking_listing b = Some l →
  gw (initiate_call env request p b u l) = Replied r →
  reports_failure r →
  ∃ resp,
    PaymentViewSet.initiate_payment env gw (routed pk) request (Some pk) w
      = (Returns resp, push_call (initiate_call env request p b u l) w) ∧
    status_code resp = HTTP_400_BAD_REQUEST ∧
    data resp !! "status" = Some (JStr "error") ∧
    data resp !! "details" = Some (reply_json r).
Proof.
  intros Hp Hb Hu Hl Hgw Hr. unfold initiate_call in *.
  exists {| status_code := HTTP_400_BAD_REQUEST;
            data := {[ "status" := JStr "error";
                       "message" := JStr "Failed to initiate payment";
                       "details" := reply_json r ]} |}.
  split; [|done].
  unfold_view. rewrite lookup_singleton_eq. simpl. rewrite Hp. simpl.
  rewrite Hb. simpl. rewrite Hu. simpl. rewrite Hl. simpl. rewrite Hgw.
  destruct (reports_failure_status _ Hr) as [Hcode|(m & Hm & Hs)].
  - by rewrite bool_decide_eq_false_2.
  - case_bool_decide; [|done]. by rewrite Hm, Hs.
Qed.

(** X2.  When the initiate call fails in transport, [initiate_payment]
    returns a 503 response with the text of the failure as its details,
    and nothing but the record of the call is added to the state. *)
Theorem initiate_payment_transport_failure env gw request w pk p b u l details :
  payments w !! pk = Some p →
  bookings w !! payment_booking p = Some b →
  users w !! booking_user b = Some u →
  listings w !! booking_listing b = Some l →
  gw (initiate_call env request p b u l) = RequestFailed details →
  ∃ resp,
    PaymentViewSet.initiate_payment env gw (routed pk) request (Some pk) w
      = (Returns resp, push_call (initiate_call env request p b u l) w) ∧
    status_code resp = HTTP_503_SERVICE_UNAVAILABLE ∧
    data resp !! "status" = Some (JStr "error") ∧
    data resp !! "details" = Some (JStr details).
Proof.
  intros Hp Hb Hu Hl Hgw. unfold initiate_call in *.
  exists {| status_code := HTTP_503_SERVICE_UNAVAILABLE;
            data := {[ "status" := JStr "error";
                       "message" := JStr "Failed to connect to payment service";
                       "details" := JStr details ]} |}.
  split; [|done].
  unfold_view. rewrite lookup_singleton_eq. simpl. rewrite Hp. simpl.
  rewrite Hb. simpl. rewrite Hu. simpl. rewrite Hl. simpl. by rewrite Hgw.
Qed.

(** X4.  A 200 reply with status ["success"] whose ["data"] is not an
    object (a [null], say): [.get] on it raises [AttributeError], which
    the handler of [initiate_payment] does not catch; nothing is written
    but the record of the call. *)
Theorem initiate_payment_data_not_an_object env gw request w pk p b u l r members v :
  payments w !! pk = Some p →
  bookings w !! payment_booking p = Some b →
  users w !! booking_user b = Some u →
  listings w !! booking_listing b = Some l →
  gw (initiate_call env request p b u l) = Replied r →
  reply_status_code r = 200 →
  reply_json r = JObj members →
  members !! "status" = Some (JStr "success") →
  members !! "data" = Some v →
  (∀ d, v ≠ JObj d) →
  PaymentViewSet.initiate_payment env gw (routed pk) request (Some pk) w
    = (Raises AttributeError, push_call (initiate_call env request p b u l) w).
Proof.
  intros Hp Hb Hu Hl Hgw Hcode Hjson Hs Hd Hv. unfold initiate_call in *.
  unfold_view. rewrite lookup_singleton_eq. simpl. rewrite Hp. simpl.
  rewrite Hb. simpl. rewrite Hu. simpl. rewrite Hl. simpl.
  rewrite Hgw, Hcode. simpl. rewrite Hjson, Hs. simpl. rewrite Hd.
  destruct v as [| | | | |d]; try reflexivity. by destruct (Hv d).
Qed.

(** ** Unknown keys *)

(** X6.  For a key under which there is no payment, both payment actions
    raise [Http404] and leave the whole state as it was: the gateway is
    not called. *)
Theorem unknown_payment_is_404 env gw request w pk :
  payments w !! pk = None →
  PaymentViewSet.initiate_payment env gw (routed pk) request (Some pk) w
    = (Raises Http404, w) ∧
  PaymentViewSet.verify_payment env gw (routed pk) request (Some pk) w
    = (Raises Http404, w).
Proof.
  intros Hp. split; unfold_view; rewrite lookup_singleton_eq; simpl; by rewrite Hp.
Qed.

(** X7.  For a key under which there is no booking, the booking's
    [initiate_payment] raises [Http404] and leaves the whole state as it
    was: no payment is created. *)
Theorem unknown_booking_is_404 env gw request w pk :
  bookings w !! pk = None →
  BookingViewSet.initiate_payment env gw (routed pk) request (Some pk) w
    = (Raises Http404, w).
Proof.
  intros Hb. unfold_view. rewrite lookup_singleton_eq. simpl. by rewrite Hb.
Qed.

(** ** Calls to the gateway *)

(** X8.  No retry.  Each payment action makes at most one call to the
    gateway whatever happens: [initiate_payment] a POST to
    [/transaction/initialize], [verify_payment] the verify call of a
    payment that has a transaction identifier.  [perform_create] and the
    booking's [initiate_payment] make none. *)
Theorem at_most_one_gateway_call env gw self request arg w :
  (let w' := after (PaymentViewSet.initiate_payment env gw self request arg) w in
   gateway_calls w' = gateway_calls w ∨
   ∃ c, gateway_calls w' = (gateway_calls w ++ [c])%list ∧
        method c = "POST" ∧
        url c = CHAPA_API_URL +:+ "/transaction/initialize" ∧
        headers c = chapa_headers env) ∧
  (let w' := after (PaymentViewSet.verify_payment env gw self request arg) w in
   gateway_calls w' = gateway_calls w ∨
   ∃ c p, gateway_calls w' = (gateway_calls w ++ [c])%list ∧
          c = verify_call env p ∧ truthy (transaction_id p) = true) ∧
  (∀ v, gateway_calls (after (BookingViewSet.perform_create env v) w)
          = gateway_calls w) ∧
  gateway_calls (after (BookingViewSet.initiate_payment env gw self request arg) w)
    = gateway_calls w.
Proof.
  split_and!.
  - unfold_view. repeat (case_match; simplify_eq/=); eauto 10.
  - unfold_view; unfold verify_call.
    repeat (case_match; simplify_eq/=); eauto;
      refine (or_intror (ex_intro _ _ (ex_intro _ _ (conj eq_refl (conj eq_refl _)))));
      by apply negb_false_iff.
  - intros v. unfold_view. by repeat (case_match; simplify_eq/=).
  - unfold_view. by repeat (case_match; simplify_eq/=).
Qed.

(** X9.  The booking's [initiate_payment] never returns a response:
    whatever the viewset, the request and the state, it raises; and it
    leaves the bookings, the task queue and the record of gateway calls as
    they were. *)
Theorem booking_initiate_payment_never_answers env gw self request arg w :
  ∃ e w',
    BookingViewSet.initiate_payment env gw self request arg w = (Raises e, w') ∧
    gateway_calls w' = gateway_calls w ∧
    task_queue w' = task_queue w ∧
    bookings w' = bookings w.
Proof.
  unfold_view. repeat (case_match; simplify_eq/=); eauto 10.
Qed.

(** ** What the payment actions leave alone *)

Lemma initiate_payment_routed_shape env gw request pk w :
  let w' := after (PaymentViewSet.initiate_payment env gw (routed pk) request (Some pk)) w in
  task_queue w' = task_queue w ∧
  next_payment_id w' = next_payment_id w ∧
  (payments w' = payments w ∨
   ∃ p tid curl, payments w !! pk = Some p ∧
     payments w' = <[payment_id p := with_payment_url curl (with_transaction_id tid p)]>
                     (payments w)).
Proof.
  unfold_view. rewrite lookup_singleton_eq.
  repeat (case_match; simplify_eq/=); split_and!; eauto 10.
Qed.

Lemma with_payment_status_same p : with_payment_status (payment_status p) p = p.
Proof. by destruct p. Qed.

Lemma with_booking_status_twice st b :
  with_booking_status st (with_booking_status st b) = with_booking_status st b.
Proof. by destruct b. Qed.

(** X11.  Whatever the outcome, [initiate_payment] adds and removes no
    payment, leaves every payment other than the one addressed as it was,
    changes nothing of the addressed one but what the gateway assigned
    (transaction identifier and checkout URL), and enqueues no job. *)
Theorem initiate_payment_frame env gw request pk w :
  integrity w →
  let w' := after (PaymentViewSet.initiate_payment env gw (routed pk) request (Some pk)) w in
  task_queue w' = task_queue w ∧
  next_payment_id w' = next_payment_id w ∧
  dom (payments w') = dom (payments w) ∧
  (∀ k, k ≠ pk → payments w' !! k = payments w !! k) ∧
  (∀ p, payments w !! pk = Some p →
        ∃ p', payments w' !! pk = Some p' ∧ same_but_gateway_fields p p').
Proof.
  intros Hw w'.
  destruct (initiate_payment_routed_shape env gw request pk w)
    as (Hq & Hn & [Hp|(p & tid & curl & Hk & Hp)]); fold w' in Hq, Hn, Hp.
  - rewrite Hp. split_and!; try done. intros p Hk. exists p. by split_and!.
  - destruct (integrity_payment _ _ _ Hw Hk) as (Hid & _). rewrite Hid in Hp.
    rewrite Hp. split_and!; try done.
    + by apply dom_insert_lookup_L.
    + intros k Hne. by rewrite lookup_insert_ne.
    + intros p0 Hk0. simplify_eq. rewrite lookup_insert_eq.
      eexists. split; [done|]. by split_and!.
Qed.

(** X12.  Whatever the outcome, [verify_payment] adds and removes no
    payment and no booking, leaves every payment other than the one
    addressed as it was, changes nothing of the addressed one but its
    status (which stays, or becomes [completed] or [failed]), leaves every
    booking other than the payment's own as it was, and changes nothing
    of a booking but its status, to [confirmed]. *)
Theorem verify_payment_frame env gw request pk w :
  integrity w →
  let w' := after (PaymentViewSet.verify_payment env gw (routed pk) request (Some pk)) w in
  dom (payments w') = dom (payments w) ∧
  dom (bookings w') = dom (bookings w) ∧
  (∀ k, k ≠ pk → payments w' !! k = payments w !! k) ∧
  (∀ p, payments w !! pk = Some p →
        ∃ st, payments w' !! pk = Some (with_payment_status st p) ∧
              (st = payment_status p ∨ st = completed ∨ st = failed)) ∧
  (∀ j, payment_booking <$> payments w !! pk ≠ Some j →
        bookings w' !! j = bookings w !! j) ∧
  (∀ j b, bookings w !! j = Some b →
          bookings w' !! j = Some b ∨
          bookings w' !! j = Some (with_booking_status confirmed b)).
Proof.
  intros Hw w'.
  destruct (verify_payment_shape env gw request pk w)
    as (_ & _ & _ & _ & Hp & Hb); fold w' in Hp, Hb.
  assert (dom (payments w') = dom (payments w) ∧
          (∀ k, k ≠ pk → payments w' !! k = payments w !! k) ∧
          (∀ p, payments w !! pk = Some p →
             ∃ st, payments w' !! pk = Some (with_payment_status st p) ∧
                   (st = payment_status p ∨ st = completed ∨ st = failed)))
    as (Hdp & Hother & Hself).
  { destruct Hp as [->|(p & st & Hk & Hst & ->)].
    - split_and!; try done. intros p Hk. exists (payment_status p).
      rewrite with_payment_status_same. eauto.
    - destruct (integrity_payment _ _ _ Hw Hk) as (-> & _). split_and!.
      + by apply dom_insert_lookup_L.
      + intros k Hne. by rewrite lookup_insert_ne.
      + intros p0 Hk0. simplify_eq. rewrite lookup_insert_eq.
        exists st. split; [done|]. destruct st; auto. done. }
  assert (dom (bookings w') = dom (bookings w) ∧
          (∀ j, payment_booking <$> payments w !! pk ≠ Some j →
             bookings w' !! j = bookings w !! j) ∧
          (∀ j b, bookings w !! j = Some b →
             bookings w' !! j = Some b ∨
             bookings w' !! j = Some (with_booking_status confirmed b)))
    as (Hdb & Hbo & Hbs).
  { destruct Hb as [->|(p & b0 & Hk & Hb0 & ->)]; [by eauto|].
    destruct (integrity_booking _ _ _ Hw Hb0) as (-> & _). split_and!.
    - by apply dom_insert_lookup_L.
    - intros j Hj. rewrite Hk in Hj. simpl in Hj.
      rewrite lookup_insert_ne; [done|]. congruence.
    - intros j b Hj. rewrite lookup_insert. case_decide; simplify_eq; eauto. }
  by split_and!.
Qed.

(** ** What no sequence of operations does *)

Lemma step_keeps_integrity env op w : integrity w → integrity (step env op w).
Proof.
  intros Hw. destruct op as [v|pk request gw|pk request gw|pk request gw]; simpl.
  - by apply perform_create_integrity.
  - destruct (booking_initiate_shape env gw pk request w) as (w1 & Hw1 & Hw').
    assert (integrity w1) as Hi1.
    { destruct Hw1 as [->|(b & Hb & ->)]; [done|].
      destruct (integrity_booking _ _ _ Hw Hb) as (Hbid & _).
      apply pending_payment_integrity; [done|]. by rewrite Hbid, Hb. }
    destruct Hw' as [->|[arg ->]]; [done|]. by apply initiate_payment_integrity.
  - by apply initiate_payment_integrity.
  - by apply verify_payment_integrity.
Qed.

(** X13.  Every sequence of operations keeps referential integrity: each
    row stays under its own key, below the next key of its table, and
    every foreign key keeps pointing at a row. *)
Theorem operations_keep_integrity env ops w :
  integrity w → integrity (run env ops w).
Proof.
  revert w. induction ops as [|op ops IH]; intros w Hw; [done|].
  simpl. apply IH. by apply step_keeps_integrity.
Qed.

Lemma same_payment_attempt_refl p : same_payment_attempt p p.
Proof. by split_and!. Qed.

Lemma same_payment_attempt_trans p1 p2 p3 :
  same_payment_attempt p1 p2 → same_payment_attempt p2 p3 → same_payment_attempt p1 p3.
Proof. unfold same_payment_attempt. intros (?&?&?&?&?) (?&?&?&?&?). split_and!; congruence. Qed.

Lemma step_keeps_payments env op w k p :
  integrity w → payments w !! k = Some p →
  ∃ p', payments (step env op w) !! k = Some p' ∧ same_payment_attempt p p'.
Proof.
  intros Hw Hk.
  destruct (integrity_payment _ _ _ Hw Hk) as (Hid & Hlt & _).
  assert (∀ gw self request arg w0,
    integrity w0 → payments w0 !! k = Some p →
    ∃ p', payments (after (PaymentViewSet.initiate_payment env gw self request arg) w0) !! k
            = Some p' ∧ same_payment_attempt p p') as Hinit.
  { intros gw self request arg w0 Hw0 Hk0.
    destruct (initiate_payment_shape env gw self request arg w0)
      as (_ & _ & _ & _ & _ & _ & [->|(j & q & tid & curl & Hq & ->)]).
    { exists p. split; [done|apply same_payment_attempt_refl]. }
    destruct (integrity_payment _ _ _ Hw0 Hq) as (-> & _).
    rewrite lookup_insert. case_decide; simplify_eq.
    - eexists. split; [done|]. by split_and!.
    - exists p. split; [done|apply same_payment_attempt_refl]. }
  destruct op as [v|pk request gw|pk request gw|pk request gw]; simpl.
  - destruct (perform_create_shape env v w)
      as (_ & _ & [(-> & _)|(_ & _ & _ & -> & _)]).
    + exists p. split; [done|apply same_payment_attempt_refl].
    + rewrite lookup_insert_ne by lia.
      exists p. split; [done|apply same_payment_attempt_refl].
  - destruct (booking_initiate_shape env gw pk request w) as (w1 & Hw1 & Hw').
    assert (integrity w1 ∧ payments w1 !! k = Some p) as [Hi1 Hk1].
    { destruct Hw1 as [->|(b & Hb & ->)]; [done|].
      destruct (integrity_booking _ _ _ Hw Hb) as (Hbid & _).
      split. { apply pending_payment_integrity; [done|]. by rewrite Hbid, Hb. }
      destruct (pending_payment_shape env b w)
        as (_ & _ & _ & _ & _ & [[-> _]|(_ & -> & _)]); [done|].
      by rewrite lookup_insert_ne by lia. }
    destruct Hw' as [->|[arg ->]].
    + exists p. split; [done|apply same_payment_attempt_refl].
    + by apply Hinit.
  - by apply Hinit.
  - destruct (verify_payment_shape env gw request pk w)
      as (_ & _ & _ & _ & [->|(q & st & Hq & Hne & ->)] & _).
    + exists p. split; [done|apply same_payment_attempt_refl].
    + destruct (integrity_payment _ _ _ Hw Hq) as (-> & _).
      rewrite lookup_insert. case_decide; simplify_eq.
      * eexists. split; [done|]. by split_and!.
      * exists p. split; [done|apply same_payment_attempt_refl].
Qed.

(** X14.  No sequence of the four operations that [views.py] defines
    ([perform_create], the two [initiate_payment] actions,
    [verify_payment]) deletes a payment or changes the booking it belongs
    to, its amount, its currency or its reference.  The update and
    destroy that the payments resource inherits are not among the
    four. *)
Theorem payments_are_kept env ops w k p :
  integrity w → payments w !! k = Some p →
  ∃ p', payments (run env ops w) !! k = Some p' ∧ same_payment_attempt p p'.
Proof.
  revert w p. induction ops as [|op ops IH]; intros w p Hw Hk.
  { exists p. split; [done|apply same_payment_attempt_refl]. }
  simpl.
  destruct (step_keeps_payments env op w k p Hw Hk) as (p1 & Hk1 & H1).
  destruct (IH (step env op w) p1 (step_keeps_integrity env op w Hw) Hk1)
    as (p2 & Hk2 & H2).
  exists p2. split; [done|]. by apply (same_payment_attempt_trans p p1 p2).
Qed.

Lemma step_keeps_bookings env op w k b :
  integrity w → bookings w !! k = Some b →
  bookings (step env op w) !! k = Some b ∨
  bookings (step env op w) !! k = Some (with_booking_status confirmed b).
Proof.
  intros Hw Hk.
  destruct (integrity_booking _ _ _ Hw Hk) as (Hid & Hlt & _).
  destruct op as [v|pk request gw|pk request gw|pk request gw]; simpl.
  - destruct (perform_create_shape env v w)
      as (_ & _ & [(_ & -> & _)|(_ & _ & -> & _)]); [by left|].
    left. by rewrite lookup_insert_ne by lia.
  - destruct (booking_initiate_shape env gw pk request w) as (w1 & Hw1 & Hw').
    assert (bookings w1 = bookings w) as Hb1.
    { destruct Hw1 as [->|(b0 & _ & ->)]; [done|].
      by destruct (pending_payment_shape env b0 w) as (_ & _ & -> & _). }
    destruct Hw' as [->|[arg ->]]; [left; by rewrite Hb1|].
    destruct (initiate_payment_shape env gw BookingViewSet.payment_viewset request arg w1)
      as (_ & _ & -> & _). left. by rewrite Hb1.
  - destruct (initiate_payment_shape env gw (routed pk) request (Some pk) w)
      as (_ & _ & -> & _). by left.
  - destruct (verify_payment_shape env gw request pk w)
      as (_ & _ & _ & _ & _ & [->|(q & b0 & Hq & Hb0 & ->)]); [by left|].
    destruct (integrity_booking _ _ _ Hw Hb0) as (-> & _).
    rewrite lookup_insert. case_decide; simplify_eq; [|by left].
    right. do 2 f_equal. congruence.
Qed.

(** X15.  No sequence of the four operations that [views.py] defines
    ([perform_create], the two [initiate_payment] actions,
    [verify_payment]) deletes a booking, and all that such a sequence can
    change of a booking is the status, to [confirmed]: under these four a
    confirmed booking stays as it is, and none of them sets a booking to
    [cancelled] or back to pending.  The update and destroy that the
    bookings resource inherits are not among the four. *)
Theorem bookings_only_get_confirmed env ops w k b :
  integrity w → bookings w !! k = Some b →
  bookings (run env ops w) !! k = Some b ∨
  bookings (run env ops w) !! k = Some (with_booking_status confirmed b).
Proof.
  revert w b. induction ops as [|op ops IH]; intros w b Hw Hk; [by left|].
  simpl. pose proof (step_keeps_integrity env op w Hw) as Hw1.
  destruct (step_keeps_bookings env op w k b Hw Hk) as [Hk1|Hk1].
  - by apply IH.
  - destruct (IH _ _ Hw1 Hk1) as [->| ->]; [by right|].
    right. by rewrite with_booking_status_twice.
Qed.

(** ** How the operations compose *)

Lemma verify_confirmed_run env gw request w pk p b u l :
  payments w !! pk = Some p →
  truthy (transaction_id p) = true →
  gateway_confirms env gw p →
  bookings w !! payment_booking p = Some b →
  users w !! booking_user b = Some u →
  listings w !! booking_listing b = Some l →
  after (PaymentViewSet.verify_payment env gw (routed pk) request (Some pk)) w =
    push_job (confirmation_job b u l)
      (set_bookings (insert (booking_id b) (with_booking_status confirmed b))
         (set_payments (insert (payment_id p) (with_payment_status completed p))
            (push_call (verify_call env p) w))).
Proof.
  intros Hp Htid (r & Hgw & Hcode & Hbody) Hb Hu Hl.
  destruct (says_success_status _ Hbody) as (m & Hm & Hs).
  unfold verify_call in *.
  unfold_view. rewrite lookup_singleton_eq. simpl. rewrite Hp, Htid. simpl.
  rewrite Hgw, Hcode. simpl. rewrite Hm, Hs. simpl. rewrite Hb. simpl.
  rewrite Hu. simpl. rewrite Hl. reflexivity.
Qed.

Lemma verify_declined_run env gw request w pk p :
  payments w !! pk = Some p →
  truthy (transaction_id p) = true →
  gateway_declines env gw p →
  after (PaymentViewSet.verify_payment env gw (routed pk) request (Some pk)) w =
    set_payments (insert (payment_id p) (with_payment_status failed p))
      (push_call (verify_call env p) w).
Proof.
  intros Hp Htid (r & Hgw & Hr). unfold verify_call in *.
  unfold_view. rewrite lookup_singleton_eq. simpl. rewrite Hp, Htid. simpl.
  rewrite Hgw.
  destruct (reports_failure_status _ Hr) as [Hcode|(m & Hm & Hs)].
  - by rewrite bool_decide_eq_false_2.
  - case_bool_decide; [|done]. by rewrite Hm, Hs.
Qed.

Lemma with_payment_status_twice st st' p :
  with_payment_status st' (with_payment_status st p) = with_payment_status st' p.
Proof. by destruct p. Qed.

(** X16.  Verifying a payment a second time, the gateway confirming both
    times, leaves the payments and the bookings as the first verification
    left them, and enqueues the confirmation job a second time. *)
Theorem verify_payment_twice env gw1 gw2 request w pk p :
  integrity w →
  payments w !! pk = Some p →
  truthy (transaction_id p) = true →
  gateway_confirms env gw1 p →
  gateway_confirms env gw2 p →
  let w1 := step env (payment_verify pk request gw1) w in
  let w2 := step env (payment_verify pk request gw2) w1 in
  payments w2 = payments w1 ∧
  bookings w2 = bookings w1 ∧
  ∃ job, task_queue w1 = (task_queue w ++ [job])%list ∧
         task_queue w2 = (task_queue w ++ [job; job])%list.
Proof.
  intros Hw Hp Htid Hgw1 Hgw2 w1 w2.
  destruct (integrity_payment _ _ _ Hw Hp) as (Hid & _ & b & Hb).
  destruct (integrity_booking _ _ _ Hw Hb) as (Hbid & _ & [u Hu] & [l Hl]).
  assert (w1 = push_job (confirmation_job b u l)
      (set_bookings (insert (booking_id b) (with_booking_status confirmed b))
         (set_payments (insert (payment_id p) (with_payment_status completed p))
            (push_call (verify_call env p) w)))) as Hw1
    by (by apply verify_confirmed_run).
  assert (payments w1 !! pk = Some (with_payment_status completed p)) as Hp1.
  { rewrite Hw1. simpl. by rewrite Hid, lookup_insert_eq. }
  assert (bookings w1 !! payment_booking p = Some (with_booking_status confirmed b))
    as Hb1.
  { rewrite Hw1. simpl. by rewrite Hbid, lookup_insert_eq. }
  assert (w2 = push_job (confirmation_job (with_booking_status confirmed b) u l)
      (set_bookings (insert (booking_id b)
                       (with_booking_status confirmed (with_booking_status confirmed b)))
         (set_payments (insert (payment_id p)
                          (with_payment_status completed (with_payment_status completed p)))
            (push_call (verify_call env (with_payment_status completed p)) w1)))) as Hw2.
  { apply (verify_confirmed_run env gw2 request w1 pk
             (with_payment_status completed p) (with_booking_status confirmed b) u l);
      try done.
    - rewrite Hw1. simpl. exact Hu.
    - rewrite Hw1. simpl. exact Hl. }
  rewrite Hw2. simpl. rewrite with_payment_status_twice, with_booking_status_twice.
  split_and!.
  - rewrite Hw1. simpl. by rewrite insert_insert_eq.
  - rewrite Hw1. simpl. by rewrite insert_insert_eq.
  - exists (confirmation_job b u l). rewrite Hw1. simpl.
    split; [done|]. by rewrite <-app_assoc.
Qed.

(** X17.  When a verification that the gateway confirms is followed by
    one that it declines, the payment ends up [failed] while its booking
    stays [confirmed]. *)
Theorem failed_payment_of_confirmed_booking env gw1 gw2 request w pk p :
  integrity w →
  payments w !! pk = Some p →
  truthy (transaction_id p) = true →
  gateway_confirms env gw1 p →
  gateway_declines env gw2 p →
  let w1 := step env (payment_verify pk request gw1) w in
  let w2 := step env (payment_verify pk request gw2) w1 in
  payment_status <$> payments w2 !! pk = Some failed ∧
  booking_status <$> bookings w2 !! payment_booking p = Some confirmed.
Proof.
  intros Hw Hp Htid Hgw1 Hgw2 w1 w2.
  destruct (integrity_payment _ _ _ Hw Hp) as (Hid & _ & b & Hb).
  destruct (integrity_booking _ _ _ Hw Hb) as (Hbid & _ & [u Hu] & [l Hl]).
  assert (w1 = push_job (confirmation_job b u l)
      (set_bookings (insert (booking_id b) (with_booking_status confirmed b))
         (set_payments (insert (payment_id p) (with_payment_status completed p))
            (push_call (verify_call env p) w)))) as Hw1
    by (by apply verify_confirmed_run).
  assert (payments w1 !! pk = Some (with_payment_status completed p)) as Hp1.
  { rewrite Hw1. simpl. by rewrite Hid, lookup_insert_eq. }
  assert (w2 = set_payments (insert (payment_id p)
                  (with_payment_status failed (with_payment_status completed p)))
                 (push_call (verify_call env (with_payment_status completed p)) w1))
    as Hw2
    by (by apply (verify_declined_run env gw2 request w1 pk
                    (with_payment_status completed p))).
  rewrite Hw2. simpl. split.
  - by rewrite Hid, lookup_insert_eq.
  - rewrite Hw1. simpl. by rewrite Hbid, lookup_insert_eq.
Qed.

Lemma initiate_registered_run env gw request w pk p b u l r members d :
  payments w !! pk = Some p →
  bookings w !! payment_booking p = Some b →
  users w !! booking_user b = Some u →
  listings w !! booking_listing b = Some l →
  gw (initiate_call env request p b u l) = Replied r →
  reply_status_code r = 200 →
  reply_json r = JObj members →
  members !! "status" = Some (JStr "success") →
  members !! "data" = Some (JObj d) →
  PaymentViewSet.initiate_payment env gw (routed pk) request (Some pk) w =
    (Returns {| status_code := HTTP_200_OK;
                data := {[ "status" := JStr "success";
                           "message" := JStr "Payment initiated successfully";
                           "payment_url" := default JNull (d !! "checkout_url") ]} |},
     set_payments
       (insert (payment_id p)
          (with_payment_url (default JNull (d !! "checkout_url"))
             (with_transaction_id (default JNull (d !! "transaction_id")) p)))
       (push_call (initiate_call env request p b u l) w)).
Proof.
  intros Hp Hb Hu Hl Hgw Hcode Hjson Hs Hd. unfold initiate_call in *.
  unfold_view. rewrite lookup_singleton_eq. simpl. rewrite Hp. simpl.
  rewrite Hb. simpl. rewrite Hu. simpl. rewrite Hl. simpl.
  rewrite Hgw, Hcode. simpl. rewrite Hjson, Hs. simpl. rewrite Hd. reflexivity.
Qed.

Lemma verify_payment_records_call env gw request w pk p :
  payments w !! pk = Some p →
  truthy (transaction_id p) = true →
  gateway_calls (after (PaymentViewSet.verify_payment env gw (routed pk) request (Some pk)) w)
    = (gateway_calls w ++ [verify_call env p])%list.
Proof.
  intros Hp Htid. unfold verify_call.
  unfold_view. rewrite lookup_singleton_eq. simpl. rewrite Hp, Htid. simpl.
  by repeat (case_match; simplify_eq/=).
Qed.

(** X18.  After an initiation that stored the transaction identifier
    [tid], a non-empty string, [verify_payment] calls the gateway, once,
    with a GET of [/transaction/verify/tid] under the same headers. *)
Theorem initiate_then_verify_asks_for_stored_id
    env gw1 gw2 request w pk p b u l r members d tid :
  integrity w →
  payments w !! pk = Some p →
  bookings w !! payment_booking p = Some b →
  users w !! booking_user b = Some u →
  listings w !! booking_listing b = Some l →
  gw1 (initiate_call env request p b u l) = Replied r →
  reply_status_code r = 200 →
  reply_json r = JObj members →
  members !! "status" = Some (JStr "success") →
  members !! "data" = Some (JObj d) →
  d !! "transaction_id" = Some (JStr tid) →
  tid ≠ "" →
  let w1 := step env (payment_initiate pk request gw1) w in
  let w2 := step env (payment_verify pk request gw2) w1 in
  ∃ c, gateway_calls w2
         = (gateway_calls w ++ [initiate_call env request p b u l; c])%list ∧
       method c = "GET" ∧
       url c = CHAPA_API_URL +:+ "/transaction/verify/" +:+ tid ∧
       headers c = chapa_headers env.
Proof.
  intros Hw Hp Hb Hu Hl Hgw Hcode Hjson Hs Hd Htid Hne w1 w2.
  destruct (integrity_payment _ _ _ Hw Hp) as (Hid & _).
  pose proof (initiate_registered_run env gw1 request w pk p b u l r members d
                Hp Hb Hu Hl Hgw Hcode Hjson Hs Hd) as Hrun.
  rewrite Htid in Hrun. simpl in Hrun.
  assert (w1 = set_payments
       (insert (payment_id p)
          (with_payment_url (default JNull (d !! "checkout_url"))
             (with_transaction_id (JStr tid) p)))
       (push_call (initiate_call env request p b u l) w)) as Hw1.
  { unfold w1. simpl. unfold after. by rewrite Hrun. }
  set (p1 := with_payment_url (default JNull (d !! "checkout_url"))
               (with_transaction_id (JStr tid) p)) in *.
  assert (payments w1 !! pk = Some p1) as Hp1.
  { rewrite Hw1. simpl. by rewrite Hid, lookup_insert_eq. }
  assert (truthy (transaction_id p1) = true) as Ht1.
  { simpl. apply negb_true_iff. by apply String.eqb_neq. }
  exists (verify_call env p1). split_and!; try done.
  unfold w2. simpl.
  rewrite (verify_payment_records_call env gw2 request w1 pk p1 Hp1 Ht1).
  rewrite Hw1. simpl. by rewrite <-app_assoc.
Qed.

(** X19.  When the gateway's [data] carries no transaction identifier, or
    carries [null] or the empty string for it, [initiate_payment] still
    answers 200 with status ["success"]; a [verify_payment] that follows
    answers 400, "No transaction ID found for this payment", and changes
    nothing. *)
Theorem initiate_without_transaction_id_then_verify
    env gw1 gw2 request w pk p b u l r members d :
  integrity w →
  payments w !! pk = Some p →
  bookings w !! payment_booking p = Some b →
  users w !! booking_user b = Some u →
  listings w !! booking_listing b = Some l →
  gw1 (initiate_call env request p b u l) = Replied r →
  reply_status_code r = 200 →
  reply_json r = JObj members →
  members !! "status" = Some (JStr "success") →
  members !! "data" = Some (JObj d) →
  default JNull (d !! "transaction_id") = JNull ∨
    default JNull (d !! "transaction_id") = JStr "" →
  ∃ resp1 resp2 w1,
    PaymentViewSet.initiate_payment env gw1 (routed pk) request (Some pk) w
      = (Returns resp1, w1) ∧
    status_code resp1 = HTTP_200_OK ∧
    data resp1 !! "status" = Some (JStr "success") ∧
    PaymentViewSet.verify_payment env gw2 (routed pk) request (Some pk) w1
      = (Returns resp2, w1) ∧
    status_code resp2 = HTTP_400_BAD_REQUEST ∧
    data resp2 !! "message" = Some (JStr "No transaction ID found for this payment").
Proof.
  intros Hw Hp Hb Hu Hl Hgw Hcode Hjson Hs Hd Htid.
  destruct (integrity_payment _ _ _ Hw Hp) as (Hid & _).
  eexists _,
    {| status_code := HTTP_400_BAD_REQUEST;
       data := {[ "status" := JStr "error";
                  "message" := JStr "No transaction ID found for this payment" ]} |},
    _.
  split.
  { by apply (initiate_registered_run env gw1 request w pk p b u l r members d). }
  split; [done|]. split; [done|]. split; [|done].
  unfold_view. rewrite lookup_singleton_eq. simpl.
  rewrite Hid, lookup_insert_eq. simpl.
  by destruct Htid as [-> | ->].
Qed.

Lemma filter_pending_singleton w b k p :
  one_pending w → payments w !! k = Some p → pending_for b (k, p) →
  filter (pending_for b) (payments w) = {[ k := p ]}.
Proof.
  intros Hone Hk Hpend. apply map_eq. intros i.
  destruct (decide (i = k)) as [->|Hne].
  - rewrite lookup_singleton_eq. by apply map_lookup_filter_Some.
  - rewrite lookup_singleton_ne by done. apply map_lookup_filter_None. right.
    intros q Hq [Hbq Hsq]. destruct Hpend as [Hbp Hsp]. simpl in *.
    apply Hne. apply (proj1 (one_pending_spec w) Hone i q k p); congruence.
Qed.

(** X10.  On an existing booking, in a database with at most one pending
    payment per booking, the booking's [initiate_payment] raises
    [AttributeError] in the action it hands over to, and leaves the
    booking with exactly one pending payment: the one there was, or else
    a new one for the booking's total price. *)
Theorem booking_initiate_payment_ensures_pending env gw request w pk b :
  integrity w → one_pending w →
  bookings w !! pk = Some b →
  ∃ w' k p,
    BookingViewSet.initiate_payment env gw (routed pk) request (Some pk) w
      = (Raises AttributeError, w') ∧
    filter (pending_for b) (payments w') = {[ k := p ]} ∧
    (payments w' = payments w ∨
     filter (pending_for b) (payments w) = ∅ ∧
     payments w' = <[ k := p ]> (payments w) ∧
     p = new_payment env b w).
Proof.
  intros Hw Hone Hb.
  assert (∀ p w1, BookingViewSet.pending_payment env b w = (Returns p, w1) →
    BookingViewSet.initiate_payment env gw (routed pk) request (Some pk) w
      = (Raises AttributeError, w1)) as Hrun.
  { intros p w1 Hp. unfold BookingViewSet.initiate_payment.
    rewrite bind_run, get_object_routed, Hb, bind_run, Hp.
    apply handed_over_call_raises. }
  destruct (pending_payment_run env b w Hone)
    as [(k & p & Hk & Hpend & Hp)|(Hnone & w' & Hp & Hps & _)].
  - exists w, k, p. split_and!; [by apply (Hrun p)| |by left].
    by apply filter_pending_singleton.
  - exists w', (next_payment_id w), (new_payment env b w).
    split_and!; [by apply (Hrun (new_payment env b w))| |by right].
    rewrite Hps, map_filter_insert_True by done. by rewrite Hnone.
Qed.

(** X20.  Right after a booking is created, looking up its pending
    payment finds the payment that [perform_create] made, and creates
    none. *)
Theorem perform_create_then_pending_payment env v w u l :
  integrity w →
  users w !! data_user v = Some u →
  listings w !! data_listing v = Some l →
  let b := new_booking v w in
  let p := new_payment env b w in
  ∃ w1,
    BookingViewSet.perform_create env v w = (Returns b, w1) ∧
    BookingViewSet.pending_payment env b w1 = (Returns p, w1).
Proof.
  intros Hw Hu Hl b p. eexists. split.
  { unfold_view. rewrite Hl, Hu. simpl. rewrite Hu. simpl. rewrite Hl. reflexivity. }
  unfold BookingViewSet.pending_payment, try_except_Payment_DoesNotExist,
    Payment_objects_get_pending.
  rewrite bind_run. unfold read. simpl.
  rewrite map_filter_insert_True by done.
  rewrite map_empty_filter_2.
  - rewrite insert_empty, map_to_list_singleton. reflexivity.
  - intros k q Hq [Hbk _]. simpl in Hbk.
    by apply (no_payment_of_next_booking w k q).
Qed.

(** ** The URLs sent to the gateway *)

Lemma rstrip_slash_app_slash s : rstrip_slash (s +:+ "/") = rstrip_slash s.
Proof.
  induction s as [|a s IH]; [done|].
  rewrite string_app_cons. simpl. by rewrite IH.
Qed.

Lemma rstrip_slash_idemp s : rstrip_slash (rstrip_slash s) = rstrip_slash s.
Proof.
  induction s as [|a s IH]; [done|]. simpl.
  destruct (rstrip_slash s) as [|c r] eqn:E.
  - destruct (Ascii.eqb a "/") eqn:Ea; [done|]. simpl. by rewrite Ea.
  - simpl. simpl in IH. by rewrite IH.
Qed.

(** X21.  The callback URL and the return URL do not depend on slashes at
    the end of the root URL: adding one, or stripping them all, gives the
    same URLs. *)
Theorem urls_ignore_trailing_slashes root payment booking :
  let with_slash := {| absolute_root := root +:+ "/" |} in
  let stripped := {| absolute_root := rstrip_slash root |} in
  let plain := {| absolute_root := root |} in
  PaymentViewSet.callback_url with_slash payment
    = PaymentViewSet.callback_url plain payment ∧
  PaymentViewSet.return_url with_slash booking
    = PaymentViewSet.return_url plain booking ∧
  PaymentViewSet.callback_url stripped payment
    = PaymentViewSet.callback_url plain payment ∧
  PaymentViewSet.return_url stripped booking
    = PaymentViewSet.return_url plain booking.
Proof.
  unfold PaymentViewSet.callback_url, PaymentViewSet.return_url. simpl.
  by rewrite rstrip_slash_app_slash, rstrip_slash_idemp.
Qed.

(** ** The routes *)

Lemma rev_app_rev_app (s a b : string) :
  String.rev_app (String.rev_app s a) b = String.rev_app a (s +:+ b).
Proof.
  revert a b. induction s as [|c s IH]; intros a b; [done|].
  simpl. rewrite IH. by rewrite string_app_cons.
Qed.

Lemma string_app_empty (s : string) : s +:+ "" = s.
Proof. induction s as [|c s IH]; [done|]. rewrite string_app_cons. by rewrite IH. Qed.

Lemma segments_go_app cur s rest :
  no_slash s = true →
  segments_go cur (s +:+ "/" +:+ rest)
    = String.rev (String.rev_app s cur) :: segments_go "" rest.
Proof.
  revert cur. induction s as [|c s IH]; intros cur Hs.
  - done.
  - rewrite string_app_cons. simpl in *. apply andb_true_iff in Hs as [Hc Hs].
    apply negb_true_iff in Hc. rewrite Hc. by rewrite IH.
Qed.

Lemma segments_cons s rest :
  no_slash s = true → segments (s +:+ "/" +:+ rest) = s :: segments rest.
Proof.
  intros Hs. unfold segments. rewrite segments_go_app by done.
  unfold String.rev. by rewrite rev_app_rev_app, string_app_empty.
Qed.

Lemma pk_segment_spec pk :
  pk_segment pk = true → is_pk pk = true ∧ no_slash pk = true.
Proof. unfold pk_segment. by intros ?%andb_true_iff. Qed.

Lemma segments_detail prefix pk :
  no_slash prefix = true → no_slash pk = true →
  segments (prefix +:+ "/" +:+ pk +:+ "/") = [prefix; pk; ""].
Proof.
  intros Hp Hk. rewrite segments_cons by done.
  rewrite <-(string_app_empty "/"). by rewrite segments_cons.
Qed.

Lemma segments_action prefix pk action :
  no_slash prefix = true → no_slash pk = true → no_slash action = true →
  segments (prefix +:+ "/" +:+ pk +:+ "/" +:+ action +:+ "/") = [prefix; pk; action; ""].
Proof.
  intros Hp Hk Ha. rewrite !segments_cons by done.
  rewrite <-(string_app_empty "/"). by rewrite segments_cons.
Qed.

Lemma route_resolves e :
  endpoint_ok e = true → resolve (route e) = Some e.
Proof.
  intros Hok. destruct e as [|  |pk| |pk|pk| |pk|pk|pk| ]; simpl in Hok;
    try reflexivity;
    apply pk_segment_spec in Hok as [Hpk Hns]; unfold resolve, route.
  - change "listings/" with ("listings" +:+ "/"). rewrite <-string_app_assoc.
    rewrite segments_detail by done. by destruct pk; rewrite Hpk.
  - change "bookings/" with ("bookings" +:+ "/"). rewrite <-string_app_assoc.
    rewrite segments_detail by done. by destruct pk; rewrite Hpk.
  - change "bookings/" with ("bookings" +:+ "/").
    change "/initiate_payment/" with ("/" +:+ "initiate_payment" +:+ "/").
    rewrite <-string_app_assoc.
    rewrite segments_action by done. by destruct pk; rewrite Hpk.
  - change "payments/" with ("payments" +:+ "/"). rewrite <-string_app_assoc.
    rewrite segments_detail by done. by destruct pk; rewrite Hpk.
  - change "payments/" with ("payments" +:+ "/").
    change "/initiate_payment/" with ("/" +:+ "initiate_payment" +:+ "/").
    rewrite <-string_app_assoc.
    rewrite segments_action by done. by destruct pk; rewrite Hpk.
  - change "payments/" with ("payments" +:+ "/").
    change "/verify_payment/" with ("/" +:+ "verify_payment" +:+ "/").
    rewrite <-string_app_assoc.
    rewrite segments_action by done. by destruct pk; rewrite Hpk.
Qed.

(** X22.  Every route of [urls.py], for a primary key that is a proper
    URL segment, resolves to its own endpoint; so no two endpoints share
    a route.  (The format-suffix variants that the router adds to these
    routes are not part of [resolve].) *)
Theorem every_route_resolves :
  (∀ e, endpoint_ok e = true → resolve (route e) = Some e) ∧
  (∀ e1 e2, endpoint_ok e1 = true → endpoint_ok e2 = true →
            route e1 = route e2 → e1 = e2).
Proof.
  split; [exact route_resolves|].
  intros e1 e2 H1 H2 Heq.
  pose proof (route_resolves e1 H1) as R1.
  pose proof (route_resolves e2 H2) as R2.
  rewrite Heq in R1. congruence.
Qed.

(** ** The further properties in the scenario *)

(** X1 in the scenario: the gateway answers 401. *)
Lemma initiate_payment_gateway_failure_witness :
  ∃ resp,
    PaymentViewSet.initiate_payment scenario_env (answering (Replied reply_rejected))
      (routed 1) scenario_request (Some 1) scenario_booked
      = (Returns resp,
         push_call (initiate_call scenario_env scenario_request scenario_payment
                      (new_booking scenario_booking scenario_start)
                      scenario_user scenario_listing) scenario_booked) ∧
    status_code resp = HTTP_400_BAD_REQUEST ∧
    data resp !! "details" = Some (reply_json reply_rejected).
Proof.
  destruct (initiate_payment_gateway_failure scenario_env
              (answering (Replied reply_rejected)) scenario_request scenario_booked 1
              scenario_payment (new_booking scenario_booking scenario_start)
              scenario_user scenario_listing reply_rejected)
    as (resp & Hrun & Hcode & _ & Hd).
  - vm_compute; reflexivity.
  - vm_compute; reflexivity.
  - vm_compute; reflexivity.
  - vm_compute; reflexivity.
  - reflexivity.
  - left. by vm_compute.
  - by exists resp.
Defined.

(** X2 in the scenario: the initiate call times out. *)
Lemma initiate_payment_transport_failure_witness :
  ∃ resp,
    PaymentViewSet.initiate_payment scenario_env (answering (RequestFailed "timed out"))
      (routed 1) scenario_request (Some 1) scenario_booked
      = (Returns resp,
         push_call (initiate_call scenario_env scenario_request scenario_payment
                      (new_booking scenario_booking scenario_start)
                      scenario_user scenario_listing) scenario_booked) ∧
    status_code resp = HTTP_503_SERVICE_UNAVAILABLE.
Proof.
  destruct (initiate_payment_transport_failure scenario_env
              (answering (RequestFailed "timed out")) scenario_request scenario_booked 1
              scenario_payment (new_booking scenario_booking scenario_start)
              scenario_user scenario_listing "timed out")
    as (resp & Hrun & Hcode & _).
  - vm_compute; reflexivity.
  - vm_compute; reflexivity.
  - vm_compute; reflexivity.
  - vm_compute; reflexivity.
  - reflexivity.
  - by exists resp.
Defined.

(** X3 in the scenario: a success body with no data. *)
Lemma initiate_payment_without_data_witness :
  ∃ w', PaymentViewSet.initiate_payment scenario_env
          (answering (Replied reply_without_data))
          (routed 1) scenario_request (Some 1) scenario_booked
          = (Raises (KeyError "data"), w') ∧
        payments w' = payments scenario_booked.
Proof.
  apply (initiate_payment_without_data scenario_env
           (answering (Replied reply_without_data)) scenario_request scenario_booked 1
           scenario_payment (new_booking scenario_booking scenario_start)
           scenario_user scenario_listing reply_without_data
           {[ "status" := JStr "success" ]}).
  - vm_compute; reflexivity.
  - vm_compute; reflexivity.
  - vm_compute; reflexivity.
  - vm_compute; reflexivity.
  - reflexivity.
  - reflexivity.
  - reflexivity.
  - vm_compute; reflexivity.
  - vm_compute; reflexivity.
Defined.

(** X4 in the scenario: a success body whose data is null. *)
Lemma initiate_payment_data_not_an_object_witness :
  PaymentViewSet.initiate_payment scenario_env (answering (Replied reply_null_data))
    (routed 1) scenario_request (Some 1) scenario_booked
    = (Raises AttributeError,
       push_call (initiate_call scenario_env scenario_request scenario_payment
                    (new_booking scenario_booking scenario_start)
                    scenario_user scenario_listing) scenario_booked).
Proof.
  apply (initiate_payment_data_not_an_object scenario_env
           (answering (Replied reply_null_data)) scenario_request scenario_booked 1
           scenario_payment (new_booking scenario_booking scenario_start)
           scenario_user scenario_listing reply_null_data
           {[ "status" := JStr "success"; "data" := JNull ]} JNull).
  - vm_compute; reflexivity.
  - vm_compute; reflexivity.
  - vm_compute; reflexivity.
  - vm_compute; reflexivity.
  - reflexivity.
  - reflexivity.
  - reflexivity.
  - vm_compute; reflexivity.
  - vm_compute; reflexivity.
  - discriminate.
Defined.

(** X5 in the scenario: the body is an empty list. *)
Lemma verify_payment_body_not_a_dict_witness :
  ∃ w', PaymentViewSet.verify_payment scenario_env (answering (Replied reply_not_a_dict))
          (routed 1) scenario_request (Some 1) scenario_initiated
          = (Raises AttributeError, w') ∧
        payments w' = payments scenario_initiated ∧
        bookings w' = bookings scenario_initiated.
Proof.
  apply (verify_payment_body_not_a_dict scenario_env
           (answering (Replied reply_not_a_dict)) scenario_request scenario_initiated 1
           scenario_registered reply_not_a_dict).
  - vm_compute; reflexivity.
  - vm_compute; reflexivity.
  - reflexivity.
  - reflexivity.
  - discriminate.
Defined.

(** X6 in the scenario: there is no payment 7. *)
Lemma unknown_payment_is_404_witness :
  PaymentViewSet.initiate_payment scenario_env (answering (Replied reply_initiated))
    (routed 7) scenario_request (Some 7) scenario_booked
    = (Raises Http404, scenario_booked) ∧
  PaymentViewSet.verify_payment scenario_env (answering (Replied reply_initiated))
    (routed 7) scenario_request (Some 7) scenario_booked
    = (Raises Http404, scenario_booked).
Proof.
  apply (unknown_payment_is_404 scenario_env (answering (Replied reply_initiated))
           scenario_request scenario_booked 7).
  vm_compute; reflexivity.
Defined.

(** X7 in the scenario: there is no booking 7. *)
Lemma unknown_booking_is_404_witness :
  BookingViewSet.initiate_payment scenario_env (answering (Replied reply_initiated))
    (routed 7) scenario_request (Some 7) scenario_booked
    = (Raises Http404, scenario_booked).
Proof.
  apply (unknown_booking_is_404 scenario_env (answering (Replied reply_initiated))
           scenario_request scenario_booked 7).
  vm_compute; reflexivity.
Defined.

(** X10 in the scenario: the booking made, its payment pending. *)
Lemma booking_initiate_payment_ensures_pending_witness :
  ∃ w' k p,
    BookingViewSet.initiate_payment scenario_env (answering (Replied reply_initiated))
      (routed 1) scenario_request (Some 1) scenario_booked
      = (Raises AttributeError, w') ∧
    filter (pending_for (new_booking scenario_booking scenario_start)) (payments w')
      = {[ k := p ]}.
Proof.
  destruct (booking_initiate_payment_ensures_pending scenario_env
              (answering (Replied reply_initiated)) scenario_request scenario_booked 1
              (new_booking scenario_booking scenario_start))
    as (w' & k & p & Hrun & Hf & _).
  - by_compute.
  - by_compute.
  - vm_compute; reflexivity.
  - by exists w', k, p.
Defined.

(** X11 in the scenario. *)
Lemma initiate_payment_frame_witness :
  let w' := after (PaymentViewSet.initiate_payment scenario_env
                     (answering (Replied reply_initiated))
                     (routed 1) scenario_request (Some 1)) scenario_booked in
  task_queue w' = task_queue scenario_booked ∧
  dom (payments w') = dom (payments scenario_booked).
Proof.
  destruct (initiate_payment_frame scenario_env (answering (Replied reply_initiated))
              scenario_request 1 scenario_booked)
    as (Hq & _ & Hd & _).
  - by_compute.
  - by split.
Defined.

(** X12 in the scenario. *)
Lemma verify_payment_frame_witness :
  let w' := after (PaymentViewSet.verify_payment scenario_env
                     (answering (Replied reply_verified))
                     (routed 1) scenario_request (Some 1)) scenario_initiated in
  dom (payments w') = dom (payments scenario_initiated) ∧
  dom (bookings w') = dom (bookings scenario_initiated).
Proof.
  destruct (verify_payment_frame scenario_env (answering (Replied reply_verified))
              scenario_request 1 scenario_initiated)
    as (Hp & Hb & _).
  - by_compute.
  - by split.
Defined.

(** X13 in the scenario: create, initiate by booking, verify declined. *)
Lemma operations_keep_integrity_witness :
  integrity (run scenario_env
               [create_booking scenario_booking;
                booking_initiate 1 scenario_request (answering (Replied reply_initiated));
                payment_verify 1 scenario_request (answering (Replied reply_declined))]
               scenario_start).
Proof.
  apply (operations_keep_integrity scenario_env _ scenario_start). by_compute.
Defined.

(** X14 in the scenario: the payment through initiation and verification. *)
Lemma payments_are_kept_witness :
  ∃ p', payments (run scenario_env
                    [payment_initiate 1 scenario_request
                       (answering (Replied reply_initiated));
                     payment_verify 1 scenario_request
                       (answering (Replied reply_verified))]
                    scenario_booked) !! 1 = Some p' ∧
        same_payment_attempt scenario_payment p'.
Proof.
  apply (payments_are_kept scenario_env _ scenario_booked 1 scenario_payment).
  - by_compute.
  - vm_compute; reflexivity.
Defined.

(** X15 in the scenario: the booking through initiation and verification. *)
Lemma bookings_only_get_confirmed_witness :
  let b := new_booking scenario_booking scenario_start in
  let w' := run scenario_env
              [payment_initiate 1 scenario_request (answering (Replied reply_initiated));
               payment_verify 1 scenario_request (answering (Replied reply_verified))]
              scenario_booked in
  bookings w' !! 1 = Some b ∨
  bookings w' !! 1 = Some (with_booking_status confirmed b).
Proof.
  apply (bookings_only_get_confirmed scenario_env _ scenario_booked 1).
  - by_compute.
  - vm_compute; reflexivity.
Defined.

(** The gateway of the scenario confirms the registered payment. *)
Lemma scenario_gateway_confirms :
  gateway_confirms scenario_env (answering (Replied reply_verified)) scenario_registered.
Proof.
  exists reply_verified. split_and!; [reflexivity..|].
  eexists. split; reflexivity.
Defined.

(** The gateway of the scenario declines the registered payment. *)
Lemma scenario_gateway_declines :
  gateway_declines scenario_env (answering (Replied reply_declined)) scenario_registered.
Proof.
  exists reply_declined. split; [reflexivity|].
  right. eexists. split; [reflexivity|]. by vm_compute.
Defined.

(** X16 in the scenario. *)
Lemma verify_payment_twice_witness :
  let verified := payment_verify 1 scenario_request (answering (Replied reply_verified)) in
  let w1 := step scenario_env verified scenario_initiated in
  let w2 := step scenario_env verified w1 in
  payments w2 = payments w1 ∧
  bookings w2 = bookings w1 ∧
  ∃ job, task_queue w1 = (task_queue scenario_initiated ++ [job])%list ∧
         task_queue w2 = (task_queue scenario_initiated ++ [job; job])%list.
Proof.
  apply (verify_payment_twice scenario_env (answering (Replied reply_verified))
           (answering (Replied reply_verified)) scenario_request scenario_initiated 1
           scenario_registered).
  - by_compute.
  - vm_compute; reflexivity.
  - vm_compute; reflexivity.
  - exact scenario_gateway_confirms.
  - exact scenario_gateway_confirms.
Defined.

(** X17 in the scenario. *)
Lemma failed_payment_of_confirmed_booking_witness :
  let w1 := step scenario_env
              (payment_verify 1 scenario_request (answering (Replied reply_verified)))
              scenario_initiated in
  let w2 := step scenario_env
              (payment_verify 1 scenario_request (answering (Replied reply_declined)))
              w1 in
  payment_status <$> payments w2 !! 1 = Some failed ∧
  booking_status <$> bookings w2 !! 1 = Some confirmed.
Proof.
  apply (failed_payment_of_confirmed_booking scenario_env
           (answering (Replied reply_verified)) (answering (Replied reply_declined))
           scenario_request scenario_initiated 1 scenario_registered).
  - by_compute.
  - vm_compute; reflexivity.
  - vm_compute; reflexivity.
  - exact scenario_gateway_confirms.
  - exact scenario_gateway_declines.
Defined.

(** X18 in the scenario: the identifier is [tx_123]. *)
Lemma initiate_then_verify_asks_for_stored_id_witness :
  let w1 := step scenario_env
              (payment_initiate 1 scenario_request (answering (Replied reply_initiated)))
              scenario_booked in
  let w2 := step scenario_env
              (payment_verify 1 scenario_request (answering (Replied reply_verified)))
              w1 in
  ∃ c, gateway_calls w2
         = (gateway_calls scenario_booked ++
            [initiate_call scenario_env scenario_request scenario_payment
               (new_booking scenario_booking scenario_start)
               scenario_user scenario_listing; c])%list ∧
       method c = "GET" ∧
       url c = CHAPA_API_URL +:+ "/transaction/verify/" +:+ "tx_123" ∧
       headers c = chapa_headers scenario_env.
Proof.
  apply (initiate_then_verify_asks_for_stored_id scenario_env
           (answering (Replied reply_initiated)) (answering (Replied reply_verified))
           scenario_request scenario_booked 1 scenario_payment
           (new_booking scenario_booking scenario_start) scenario_user scenario_listing
           reply_initiated
           {[ "status" := JStr "success";
              "data" := JObj {[ "transaction_id" := JStr "tx_123";
                                "checkout_url" := JStr "https://pay.example/tx_123" ]} ]}
           {[ "transaction_id" := JStr "tx_123";
              "checkout_url" := JStr "https://pay.example/tx_123" ]}
           "tx_123").
  - by_compute.
  - vm_compute; reflexivity.
  - vm_compute; reflexivity.
  - vm_compute; reflexivity.
  - vm_compute; reflexivity.
  - reflexivity.
  - reflexivity.
  - reflexivity.
  - vm_compute; reflexivity.
  - vm_compute; reflexivity.
  - vm_compute; reflexivity.
  - discriminate.
Defined.

(** X19 in the scenario: the data object is empty. *)
Lemma initiate_without_transaction_id_then_verify_witness :
  ∃ resp1 resp2 w1,
    PaymentViewSet.initiate_payment scenario_env (answering (Replied reply_empty_data))
      (routed 1) scenario_request (Some 1) scenario_booked = (Returns resp1, w1) ∧
    status_code resp1 = HTTP_200_OK ∧
    PaymentViewSet.verify_payment scenario_env (answering (Replied reply_verified))
      (routed 1) scenario_request (Some 1) w1 = (Returns resp2, w1) ∧
    status_code resp2 = HTTP_400_BAD_REQUEST.
Proof.
  destruct (initiate_without_transaction_id_then_verify scenario_env
              (answering (Replied reply_empty_data)) (answering (Replied reply_verified))
              scenario_request scenario_booked 1 scenario_payment
              (new_booking scenario_booking scenario_start) scenario_user scenario_listing
              reply_empty_data
              {[ "status" := JStr "success"; "data" := JObj ∅ ]} ∅)
    as (resp1 & resp2 & w1 & H1 & Hc1 & _ & H2 & Hc2 & _).
  - by_compute.
  - vm_compute; reflexivity.
  - vm_compute; reflexivity.
  - vm_compute; reflexivity.
  - vm_compute; reflexivity.
  - reflexivity.
  - reflexivity.
  - reflexivity.
  - vm_compute; reflexivity.
  - vm_compute; reflexivity.
  - left. reflexivity.
  - by exists resp1, resp2, w1.
Defined.

(** X20 in the scenario. *)
Lemma perform_create_then_pending_payment_witness :
  ∃ w1,
    BookingViewSet.perform_create scenario_env scenario_booking scenario_start
      = (Returns (new_booking scenario_booking scenario_start), w1) ∧
    BookingViewSet.pending_payment scenario_env
      (new_booking scenario_booking scenario_start) w1
      = (Returns scenario_payment, w1).
Proof.
  apply (perform_create_then_pending_payment scenario_env scenario_booking
           scenario_start scenario_user scenario_listing).
  - by_compute.
  - reflexivity.
  - reflexivity.
Defined.
